(** * The Stream controller (pkg/stream/controller.go)

    A shallow embedding of the reconciliation controller for Stream
    resources: the event handlers registered by [NewController], the
    dispatch loop ([runWorker], [processNextWorkItem]), the per-key sync
    ([syncHandler], [updateStreamStatus]) and [newService].

    The controller talks to its collaborators through Go interfaces only
    (listers, clientsets, work queue, event recorder).  Listers are modelled
    as functions, the clientsets as a type class over the remote state, and
    every call that leaves the controller (queue call, remote write, recorded
    event, reported error) is appended to a chronological trace.  Verbose
    logging ([glog]) is not part of the trace. *)

From Stdlib Require Import ZArith Ascii String.
From stdpp Require Import base strings list gmap.

Local Open Scope string_scope.
Local Open Scope list_scope.

(** ** Declarations of the repository that the controller imports

    [pkg/names] and [pkg/apis/spike.local/v1alpha1] are imported by
    controller.go; what it uses from them is gathered here: the Spec and
    Status types of a Stream, the naming rule for the derived Service and the
    group and version of the API scheme. *)
Class StreamKind := {
  StreamSpec : Type;
  StreamStatus : Type;
  StreamServiceName : string -> string;
  SchemeGroup : string;
  SchemeVersion : string
}.

(** ** fmt: the verbs the controller uses *)

Definition dquote : Ascii.ascii := Ascii.ascii_of_nat 34.
Definition backslash : Ascii.ascii := Ascii.ascii_of_nat 92.

Definition str1 (c : Ascii.ascii) : string := String c EmptyString.

(** [strconv.Quote]: the text between double quotes; double quotes and
    backslashes are escaped, the control bytes have their letter escapes or
    the [\x] form with two hexadecimal digits.  Bytes from 128 on are kept:
    that is what Go does for printable UTF-8 text. *)
Definition hex_digit (n : nat) : Ascii.ascii :=
  Ascii.ascii_of_nat (if (n <? 10)%nat then 48 + n else 87 + n).

Definition quote_byte (c : Ascii.ascii) : string :=
  let n := Ascii.nat_of_ascii c in
  if Ascii.eqb c dquote || Ascii.eqb c backslash then String backslash (str1 c)
  else if (n =? 7)%nat then String backslash "a"
  else if (n =? 8)%nat then String backslash "b"
  else if (n =? 12)%nat then String backslash "f"
  else if (n =? 10)%nat then String backslash "n"
  else if (n =? 13)%nat then String backslash "r"
  else if (n =? 9)%nat then String backslash "t"
  else if (n =? 11)%nat then String backslash "v"
  else if (n <? 32)%nat || (n =? 127)%nat then
    String backslash
      (String "x"%char (String (hex_digit (n / 16)) (str1 (hex_digit (n mod 16)))))
  else str1 c.

Fixpoint quote_body (s : string) : string :=
  match s with
  | EmptyString => EmptyString
  | String c rest => quote_byte c +:+ quote_body rest
  end.

Definition Quote (s : string) : string :=
  String dquote (quote_body s +:+ str1 dquote).

(** [fmt.Sprintf] for the formats of the controller: text, [%%] and the
    bare verbs [%s], [%v], [%q] and [%#v] on string operands (an operand
    printed with [%#v] is given in its Go-syntax form).  A verb without
    operand, a lone [%] at the end and operands left over are reported in
    the text as Go reports them, and so is a verb letter that does not
    apply to a string.  Not modelled: widths, precisions, the other flags,
    and the verbs [%x], [%X] and [%T], which Go also accepts for a
    string. *)
Definition format_verb (sharp : bool) (verb : Ascii.ascii) (arg : string) : string :=
  if Ascii.eqb verb "s"%char then arg
  else if Ascii.eqb verb "v"%char then arg
  else if Ascii.eqb verb "q"%char && negb sharp then Quote arg
  else "%!" +:+ str1 verb +:+ "(string=" +:+ arg +:+ ")".

(** The operands left over when the format is used up. *)
Fixpoint extra_operands (args : list string) : string :=
  match args with
  | [] => EmptyString
  | [a] => "string=" +:+ a
  | a :: rest => "string=" +:+ a +:+ ", " +:+ extra_operands rest
  end.

Definition extra (args : list string) : string :=
  match args with
  | [] => EmptyString
  | _ => "%!(EXTRA " +:+ extra_operands args +:+ ")"
  end.

Fixpoint Sprintf (format : string) (args : list string) : string :=
  match format with
  | EmptyString => extra args
  | String c rest =>
      if Ascii.eqb c "%"%char then
        match rest with
        | EmptyString => "%!(NOVERB)" +:+ extra args
        | String v rest' =>
            if Ascii.eqb v "%"%char then String "%"%char (Sprintf rest' args)
            else if Ascii.eqb v "#"%char then
              match rest' with
              | EmptyString => "%!(NOVERB)" +:+ extra args
              | String v' rest'' =>
                  match args with
                  | [] => "%!" +:+ str1 v' +:+ "(MISSING)" +:+ Sprintf rest'' []
                  | a :: args' => format_verb true v' a +:+ Sprintf rest'' args'
                  end
              end
            else
              match args with
              | [] => "%!" +:+ str1 v +:+ "(MISSING)" +:+ Sprintf rest' []
              | a :: args' => format_verb false v a +:+ Sprintf rest' args'
              end
        end
      else String c (Sprintf rest args)
  end.

(** ** errors *)

Inductive StatusReason :=
| StatusReasonNotFound
| StatusReasonAlreadyExists
| StatusReasonConflict
| StatusReasonBadRequest
| StatusReasonInternalError.

(** A Go [error] value: an API status error, or the text of [fmt.Errorf]. *)
Inductive error :=
| StatusError (reason : StatusReason) (message : string)
| ErrorString (text : string).

Definition Error (e : error) : string :=
  match e with
  | StatusError _ message => message
  | ErrorString text => text
  end.

Definition Errorf (format : string) (args : list string) : error :=
  ErrorString (Sprintf format args).

(** [errors.IsNotFound]; the argument may be nil. *)
Definition IsNotFound (err : option error) : bool :=
  match err with
  | Some (StatusError StatusReasonNotFound _) => true
  | _ => false
  end.

(** A Go pair [(value, err)]. *)
Inductive result (A : Type) :=
| Ok (a : A)
| Err (e : error).
Arguments Ok {A} a.
Arguments Err {A} e.

(** ** metav1 *)

Record OwnerReference := {
  ref_APIVersion : string;
  ref_Kind : string;
  ref_Name : string;
  ref_UID : string;
  ref_Controller : option bool;
  ref_BlockOwnerDeletion : option bool
}.

Record ObjectMeta := {
  Name : string;
  Namespace : string;
  SelfLink : string;
  UID : string;
  ResourceVersion : string;
  Labels : gmap string string;
  OwnerReferences : list OwnerReference
}.

(** [metav1.GetControllerOf]: the first owner reference whose Controller
    pointer is set and true. *)
Fixpoint controllerRef (refs : list OwnerReference) : option OwnerReference :=
  match refs with
  | [] => None
  | r :: rest =>
      match ref_Controller r with
      | Some true => Some r
      | _ => controllerRef rest
      end
  end.

Definition GetControllerOf (controllee : ObjectMeta) : option OwnerReference :=
  controllerRef (OwnerReferences controllee).

(** [metav1.IsControlledBy]. *)
Definition IsControlledBy (obj owner : ObjectMeta) : bool :=
  match GetControllerOf obj with
  | None => false
  | Some r => String.eqb (ref_UID r) (UID owner)
  end.

Record GroupVersionKind := {
  gvk_Group : string;
  gvk_Version : string;
  gvk_Kind : string
}.

(** [schema.GroupVersion.String]. *)
Definition GroupVersionString (group version : string) : string :=
  if String.eqb group "" && String.eqb version "" then ""
  else if String.eqb group "" && String.eqb version "v1" then version
  else if negb (String.eqb group "") then group +:+ "/" +:+ version
  else version.

(** [metav1.NewControllerRef]. *)
Definition NewControllerRef (owner : ObjectMeta) (gvk : GroupVersionKind) : OwnerReference :=
  {| ref_APIVersion := GroupVersionString (gvk_Group gvk) (gvk_Version gvk);
     ref_Kind := gvk_Kind gvk;
     ref_Name := Name owner;
     ref_UID := UID owner;
     ref_Controller := Some true;
     ref_BlockOwnerDeletion := Some true |}.

(** ** corev1 *)

Record ServicePort := {
  port_Name : string;
  port_Protocol : string;
  port_Port : Z;
  port_TargetPort : Z;
  port_NodePort : Z
}.

Record ServiceSpec := {
  Ports : list ServicePort;
  Selector : gmap string string;
  ClusterIP : string;
  Type_ : string
}.

Record Service := {
  svc_ObjectMeta : ObjectMeta;
  svc_Spec : ServiceSpec
}.

Definition EventTypeNormal : string := "Normal".
Definition EventTypeWarning : string := "Warning".

(** ** cache: object keys *)

(** [strings.Split key "/"]: [cur] collects the current part. *)
Fixpoint split_slash (s cur : string) : list string :=
  match s with
  | EmptyString => [String.rev cur]
  | String c rest =>
      if Ascii.eqb c "/"%char then String.rev cur :: split_slash rest EmptyString
      else split_slash rest (String c cur)
  end.

(** [cache.SplitMetaNamespaceKey]. *)
Definition SplitMetaNamespaceKey (key : string) : result (string * string) :=
  match split_slash key EmptyString with
  | [name] => Ok ("", name)
  | [namespace; name] => Ok (namespace, name)
  | _ => Err (Errorf "unexpected key format: %q" [key])
  end.

(** [cache.MetaNamespaceKeyFunc] on an object that has metadata. *)
Definition MetaNamespaceKey (meta : ObjectMeta) : string :=
  if (0 <? String.length (Namespace meta))%nat
  then Namespace meta +:+ "/" +:+ Name meta
  else Name meta.

(** ** The controller's constants *)

Definition controllerAgentName : string := "stream-controller".
Definition SuccessSynced : string := "Synced".
Definition ErrResourceExists : string := "ErrResourceExists".
Definition MessageResourceExists : string :=
  "Resource %q already exists and is not managed by Stream".
Definition MessageResourceSynced : string := "Stream synced successfully".

Section Model.
Context {K : StreamKind}.

(** ** spikev1alpha1.Stream *)

Record Stream := {
  stream_ObjectMeta : ObjectMeta;
  stream_Spec : StreamSpec;
  stream_Status : StreamStatus
}.

(** Modelled from the spec: the generated [DeepCopy] of a Stream
    (zz_generated.deepcopy.go is not among the sources).  A deep copy shares
    no memory with the original and has the same value in every field; on
    immutable values it rebuilds the object field by field. *)
Definition DeepCopyMeta (m : ObjectMeta) : ObjectMeta :=
  {| Name := Name m;
     Namespace := Namespace m;
     SelfLink := SelfLink m;
     UID := UID m;
     ResourceVersion := ResourceVersion m;
     Labels := Labels m;
     OwnerReferences := OwnerReferences m |}.

Definition DeepCopy (s : Stream) : Stream :=
  {| stream_ObjectMeta := DeepCopyMeta (stream_ObjectMeta s);
     stream_Spec := stream_Spec s;
     stream_Status := stream_Status s |}.

(** ** Values behind [interface{}] and [metav1.Object] *)

(** The two kinds that implement [metav1.Object] here. *)
Inductive Object :=
| ObjStream (s : Stream)
| ObjService (svc : Service).

Definition metaOf (o : Object) : ObjectMeta :=
  match o with
  | ObjStream s => stream_ObjectMeta s
  | ObjService svc => svc_ObjectMeta svc
  end.

(** What an informer hands to a handler as [interface{}]: an object, a
    [cache.DeletedFinalStateUnknown] tombstone (whose [Obj] may or may not be
    an object), a [cache.ExplicitKey], or some other value. *)
Inductive Iface :=
| IObject (o : Object)
| ITombstone (key : string) (obj : option Object)
| IExplicitKey (key : string)
| IOther.

(** [cache.MetaNamespaceKeyFunc]. *)
Definition MetaNamespaceKeyFunc (obj : Iface) : result string :=
  match obj with
  | IExplicitKey key => Ok key
  | IObject o => Ok (MetaNamespaceKey (metaOf o))
  | _ => Err (Errorf "object has no meta: %v"
                ["object does not implement the Object interfaces"])
  end.

(** ** The work queue, the recorder and the clientsets, as seen by the
    controller *)

(** An item of the queue is an [interface{}]; the controller expects
    strings.  Any other item carries its [%#v] rendering. *)
Inductive Item :=
| ItemString (key : string)
| ItemOther (gosyntax : string).

(** The methods of [workqueue.RateLimitingInterface] a controller can call
    on an item. *)
Inductive QueueCall :=
| Add (item : Item)
| AddRateLimited (item : Item)
| Forget (item : Item)
| Done (item : Item).

Inductive Effect :=
| Queue (call : QueueCall)
| HandleError (err : error)
| RecorderEvent (subject : Stream) (eventtype reason message : string)
| ServicesCreate (namespace : string) (svc : Service)
| StreamsUpdate (namespace : string) (s : Stream).

(** [kubeclientset.CoreV1().Services(ns).Create] and
    [streamclientset.SpikeV1alpha1().Streams(ns).Update], acting on a remote
    state [R]. *)
Class Clientset (R : Type) := {
  Services_Create : string -> Service -> R -> result Service * R;
  Streams_Update : string -> Stream -> R -> result Stream * R
}.

Record World (R : Type) := {
  remote : R;
  trace : list Effect
}.
Arguments remote {R} w.
Arguments trace {R} w.

(** The controller's computations: a state monad over the world. *)
Definition M (R A : Type) : Type := World R -> A * World R.

#[export] Instance M_ret {R} : MRet (M R) := fun A a w => (a, w).

#[export] Instance M_bind {R} : MBind (M R) :=
  fun A B f m w => let (a, w') := m w in f a w'.

Definition emit {R} (e : Effect) : M R unit :=
  fun w => (tt, {| remote := remote w; trace := trace w ++ [e] |}).

Definition servicesCreate {R} `{Clientset R} (namespace : string) (svc : Service)
  : M R (result Service) :=
  fun w =>
    let (r, remote') := Services_Create namespace svc (remote w) in
    (r, {| remote := remote'; trace := trace w ++ [ServicesCreate namespace svc] |}).

Definition streamsUpdate {R} `{Clientset R} (namespace : string) (s : Stream)
  : M R (result Stream) :=
  fun w =>
    let (r, remote') := Streams_Update namespace s (remote w) in
    (r, {| remote := remote'; trace := trace w ++ [StreamsUpdate namespace s] |}).

End Model.

Arguments remote {K R} w.
Arguments trace {K R} w.

Section Controller.
Context {K : StreamKind} {R : Type} `{!Clientset R}.

(** ** The controller

    Of the fields of the Go struct, the listers are kept as fields; the
    clientsets are the [Clientset] instance, and the work queue and the
    recorder receive the calls of the trace.  A lister's
    [Streams(namespace).Get(name)] is a function of namespace and name. *)
Record Controller := {
  streamsLister : string -> string -> result Stream;
  servicesLister : string -> string -> result Service
}.

(** The [err] of a Go pair. *)
Definition err_of {A} (r : result A) : option error :=
  match r with
  | Ok _ => None
  | Err e => Some e
  end.

Definition newService (stream : Stream) : Service :=
  let labels : gmap string string := {[ "stream" := Name (stream_ObjectMeta stream) ]} in
  {| svc_ObjectMeta :=
       {| Name := StreamServiceName (Name (stream_ObjectMeta stream));
          Namespace := Namespace (stream_ObjectMeta stream);
          SelfLink := "";
          UID := "";
          ResourceVersion := "";
          Labels := labels;
          OwnerReferences :=
            [ NewControllerRef (stream_ObjectMeta stream)
                {| gvk_Group := SchemeGroup;
                   gvk_Version := SchemeVersion;
                   gvk_Kind := "Stream" |} ] |};
     svc_Spec :=
       {| Ports := [ {| port_Name := ""; port_Protocol := ""; port_Port := 80;
                        port_TargetPort := 0; port_NodePort := 0 |} ];
          Selector := ∅;
          ClusterIP := "";
          Type_ := "NodePort" |} |}.

Definition updateStreamStatus (c : Controller) (stream : Stream) (service : Service)
  : M R (option error) :=
  let streamCopy := DeepCopy stream in
  r ← streamsUpdate (Namespace (stream_ObjectMeta stream)) streamCopy;
  mret (err_of r).

Definition syncHandler (c : Controller) (key : string) : M R (option error) :=
  match SplitMetaNamespaceKey key with
  | Err _ =>
      emit (HandleError (Errorf "invalid resource key: %s" [key]));;
      mret None
  | Ok (namespace, name) =>
      match streamsLister c namespace name with
      | Err err =>
          if IsNotFound (Some err) then
            emit (HandleError
                    (Errorf "stream '%s' in work queue no longer exists" [key]));;
            mret None
          else mret (Some err)
      | Ok stream =>
          let serviceName := StreamServiceName name in
          let got := servicesLister c (Namespace (stream_ObjectMeta stream)) serviceName in
          got' ← (if IsNotFound (err_of got)
                  then servicesCreate (Namespace (stream_ObjectMeta stream))
                                      (newService stream)
                  else mret got);
          match got' with
          | Err err => mret (Some err)
          | Ok service =>
              if negb (IsControlledBy (svc_ObjectMeta service) (stream_ObjectMeta stream))
              then
                let msg := Sprintf MessageResourceExists [Name (svc_ObjectMeta service)] in
                emit (RecorderEvent stream EventTypeWarning ErrResourceExists msg);;
                mret (Some (Errorf msg []))
              else
                err ← updateStreamStatus c stream service;
                match err with
                | Some e => mret (Some e)
                | None =>
                    emit (RecorderEvent stream EventTypeNormal SuccessSynced
                                        MessageResourceSynced);;
                    mret None
                end
          end
      end
  end.

(** The function literal inside [processNextWorkItem], applied to the
    dequeued [obj]; its deferred [Done] runs when the block returns. *)
Definition processItem (c : Controller) (obj : Item) : M R (option error) :=
  err ← match obj with
        | ItemOther gosyntax =>
            emit (Queue (Forget obj));;
            emit (HandleError
                    (Errorf "expected string in workqueue but got %#v" [gosyntax]));;
            mret None
        | ItemString key =>
            err ← syncHandler c key;
            match err with
            | Some err =>
                mret (Some (Errorf "error syncing '%s': %s" [key; Error err]))
            | None =>
                emit (Queue (Forget obj));;
                mret None
            end
        end;
  emit (Queue (Done obj));;
  mret err.

(** [processNextWorkItem], from the pair returned by [c.workqueue.Get()]. *)
Definition processNextWorkItem (c : Controller) (got : Item * bool) : M R bool :=
  let (obj, shutdown) := got in
  if shutdown then mret false
  else
    err ← processItem c obj;
    match err with
    | Some err => emit (HandleError err);; mret true
    | None => mret true
    end.

(** [runWorker]: [for c.processNextWorkItem() {}], run against the
    successive results of [Get].  The result is what the worker has not
    consumed: it is empty when the worker waits in [Get] for more. *)
Fixpoint runWorker (c : Controller) (gets : list (Item * bool))
  : M R (list (Item * bool)) :=
  match gets with
  | [] => mret []
  | got :: rest =>
      continue ← processNextWorkItem c got;
      if continue : bool then runWorker c rest else mret rest
  end.

Definition enqueueStream (c : Controller) (obj : Iface) : M R unit :=
  match MetaNamespaceKeyFunc obj with
  | Err err => emit (HandleError err)
  | Ok key => emit (Queue (AddRateLimited (ItemString key)))
  end.

Definition handleObject (c : Controller) (obj : Iface) : M R unit :=
  object ← match obj with
           | IObject o => mret (Some (metaOf o))
           | ITombstone _ (Some o) => mret (Some (metaOf o))
           | ITombstone _ None =>
               emit (HandleError
                       (Errorf "error decoding object tombstone, invalid type" []));;
               mret None
           | _ =>
               emit (HandleError (Errorf "error decoding object, invalid type" []));;
               mret None
           end;
  match object with
  | None => mret tt
  | Some object =>
      match GetControllerOf object with
      | Some ownerRef =>
          if negb (String.eqb (ref_Kind ownerRef) "Stream") then mret tt
          else
            match streamsLister c (Namespace object) (ref_Name ownerRef) with
            | Err _ => mret tt
            | Ok stream => enqueueStream c (IObject (ObjStream stream))
            end
      | None => mret tt
      end
  end.

(** ** The event handlers registered by [NewController] *)

(** A notification of an informer for objects of type [A]; a delete may
    deliver a tombstone. *)
Inductive Notification (A : Type) :=
| OnAdd (obj : A)
| OnUpdate (oldObj newObj : A)
| OnDelete (obj : Iface).
Arguments OnAdd {A} obj.
Arguments OnUpdate {A} oldObj newObj.
Arguments OnDelete {A} obj.

(** The Stream informer has an [AddFunc] and an [UpdateFunc] only. *)
Definition streamEventHandler (c : Controller) (n : Notification Stream) : M R unit :=
  match n with
  | OnAdd obj => enqueueStream c (IObject (ObjStream obj))
  | OnUpdate old new => enqueueStream c (IObject (ObjStream new))
  | OnDelete _ => mret tt
  end.

Definition serviceEventHandler (c : Controller) (n : Notification Service) : M R unit :=
  match n with
  | OnAdd obj => handleObject c (IObject (ObjService obj))
  | OnUpdate oldService newService =>
      if String.eqb (ResourceVersion (svc_ObjectMeta newService))
                    (ResourceVersion (svc_ObjectMeta oldService))
      then mret tt
      else handleObject c (IObject (ObjService newService))
  | OnDelete obj => handleObject c obj
  end.

End Controller.

Arguments Notification {K} A.
Arguments OnAdd {K A} obj.
Arguments OnUpdate {K A} oldObj newObj.
Arguments OnDelete {K A} obj.

(** ** The fake clientset's object tracker

    [NewSimpleClientset] answers every call from an object tracker that
    "processes creates, updates and deletions as-is, without applying any
    validations and/or defaults".  Objects are stored under (namespace,
    name): a request whose namespace is not the object's is refused, a
    create of a stored name is refused, an update of a missing name is
    refused, and otherwise the object sent is stored as it is and
    returned. *)
Section Tracker.
Context {K : StreamKind}.

Record Tracker := {
  tracked_services : gmap (string * string) Service;
  tracked_streams : gmap (string * string) Stream
}.

(** The tracker first copies the namespace of the request into an object
    that has none. *)
Definition withNamespace (namespace : string) (m : ObjectMeta) : ObjectMeta :=
  if (String.length (Namespace m) =? 0)%nat then
    {| Name := Name m; Namespace := namespace; SelfLink := SelfLink m; UID := UID m;
       ResourceVersion := ResourceVersion m; Labels := Labels m;
       OwnerReferences := OwnerReferences m |}
  else m.

Definition namespaceMismatch (namespace : string) (m : ObjectMeta) : error :=
  StatusError StatusReasonBadRequest
    (Sprintf "request namespace does not match object namespace, request: %q object: %q"
             [namespace; Namespace m]).

Definition tracker_create_service (namespace : string) (svc : Service) (t : Tracker)
  : result Service * Tracker :=
  let svc := {| svc_ObjectMeta := withNamespace namespace (svc_ObjectMeta svc);
                svc_Spec := svc_Spec svc |} in
  let m := svc_ObjectMeta svc in
  if negb (String.eqb namespace (Namespace m)) then (Err (namespaceMismatch namespace m), t)
  else
    match tracked_services t !! (Namespace m, Name m) with
    | Some _ => (Err (StatusError StatusReasonAlreadyExists (Name m)), t)
    | None =>
        (Ok svc,
         {| tracked_services := <[(Namespace m, Name m) := svc]> (tracked_services t);
            tracked_streams := tracked_streams t |})
    end.

Definition tracker_update_stream (namespace : string) (s : Stream) (t : Tracker)
  : result Stream * Tracker :=
  let s := {| stream_ObjectMeta := withNamespace namespace (stream_ObjectMeta s);
              stream_Spec := stream_Spec s;
              stream_Status := stream_Status s |} in
  let m := stream_ObjectMeta s in
  if negb (String.eqb namespace (Namespace m)) then (Err (namespaceMismatch namespace m), t)
  else
    match tracked_streams t !! (Namespace m, Name m) with
    | None => (Err (StatusError StatusReasonNotFound (Name m)), t)
    | Some _ =>
        (Ok s,
         {| tracked_services := tracked_services t;
            tracked_streams := <[(Namespace m, Name m) := s]> (tracked_streams t) |})
    end.

#[export] Instance tracker_clientset : Clientset Tracker := {
  Services_Create := tracker_create_service;
  Streams_Update := tracker_update_stream
}.

End Tracker.

(** ** A sample instance

    Streams whose Spec and Status are texts, with a suffix naming rule. *)
Module Sample.

#[export] Instance kind : StreamKind := {
  StreamSpec := string;
  StreamStatus := string;
  StreamServiceName := fun name => name +:+ "-stream";
  SchemeGroup := "spike.local";
  SchemeVersion := "v1alpha1"
}.

Definition meta (namespace name uid rv : string) (refs : list OwnerReference) : ObjectMeta :=
  {| Name := name; Namespace := namespace; SelfLink := ""; UID := uid;
     ResourceVersion := rv; Labels := ∅; OwnerReferences := refs |}.

Definition s1 : Stream :=
  {| stream_ObjectMeta := meta "ns" "s1" "uid-1" "7" [];
     stream_Spec := "spec-b";
     stream_Status := "" |}.

(** [s1] as a store may hold it: the same metadata, another Spec. *)
Definition s1_stored : Stream :=
  {| stream_ObjectMeta := meta "ns" "s1" "uid-1" "7" [];
     stream_Spec := "spec-a";
     stream_Status := "" |}.

(** [s1] with its Spec edited and nothing else: what a client sends that
    read [s1] and changed the Spec. *)
Definition s1_edited : Stream :=
  {| stream_ObjectMeta := stream_ObjectMeta s1;
     stream_Spec := "spec-a";
     stream_Status := stream_Status s1 |}.

(** The Service derived from [s1], as the store returns it. *)
Definition svc1 : Service :=
  {| svc_ObjectMeta :=
       meta "ns" "s1-stream" "uid-svc" "3"
            (OwnerReferences (svc_ObjectMeta (newService s1)));
     svc_Spec := svc_Spec (newService s1) |}.

(** A Service of the same name that nobody controls. *)
Definition foreign : Service :=
  {| svc_ObjectMeta := meta "ns" "s1-stream" "uid-x" "1" [];
     svc_Spec := svc_Spec (newService s1) |}.

Definition lister {A} (objs : list (string * string * A)) (namespace name : string)
  : result A :=
  match list_find (fun o => bool_decide (o.1 = (namespace, name))) objs with
  | Some (_, (_, a)) => Ok a
  | None => Err (StatusError StatusReasonNotFound name)
  end.

Definition controller (streams : list Stream) (services : list Service) : Controller :=
  {| streamsLister :=
       lister (map (fun s => (Namespace (stream_ObjectMeta s),
                              Name (stream_ObjectMeta s), s)) streams);
     servicesLister :=
       lister (map (fun s => (Namespace (svc_ObjectMeta s),
                              Name (svc_ObjectMeta s), s)) services) |}.

Definition tracker (streams : list Stream) (services : list Service) : Tracker :=
  {| tracked_services :=
       list_to_map (map (fun s => ((Namespace (svc_ObjectMeta s),
                                    Name (svc_ObjectMeta s)), s)) services);
     tracked_streams :=
       list_to_map (map (fun s => ((Namespace (stream_ObjectMeta s),
                                    Name (stream_ObjectMeta s)), s)) streams) |}.

Definition world (t : Tracker) : World Tracker := {| remote := t; trace := [] |}.

End Sample.


(** ** Vocabulary of the statements *)

Section Vocabulary.
Context {K : StreamKind}.

(** The calls made on the work queue, in order. *)
Fixpoint queue_calls (tr : list Effect) : list QueueCall :=
  match tr with
  | [] => []
  | Queue q :: rest => q :: queue_calls rest
  | _ :: rest => queue_calls rest
  end.

(** The remote writes, in order. *)
Definition is_remote_write (e : Effect) : bool :=
  match e with
  | ServicesCreate _ _ | StreamsUpdate _ _ => true
  | _ => false
  end.

(** The last known metadata of a dependent object handed to a handler:
    the object itself, or the one kept in a tombstone. *)
Definition lastKnown (obj : Iface) : option ObjectMeta :=
  match obj with
  | IObject o => Some (metaOf o)
  | ITombstone _ (Some o) => Some (metaOf o)
  | _ => None
  end.

(** The object a Service notification is about. *)
Definition notified (n : Notification Service) : Iface :=
  match n with
  | OnAdd obj => IObject (ObjService obj)
  | OnUpdate _ newObj => IObject (ObjService newObj)
  | OnDelete obj => obj
  end.

(** An update that carries the resourceVersion already seen (a periodic
    resync). *)
Definition is_resync (n : Notification Service) : bool :=
  match n with
  | OnUpdate oldObj newObj =>
      bool_decide (ResourceVersion (svc_ObjectMeta newObj)
                   = ResourceVersion (svc_ObjectMeta oldObj))
  | _ => false
  end.

(** The number of slashes of a key. *)
Fixpoint count_slash (s : string) : nat :=
  match s with
  | EmptyString => 0
  | String c rest => (if Ascii.eqb c "/"%char then 1 else 0) + count_slash rest
  end.

Definition is_Done (q : QueueCall) : bool :=
  match q with
  | Done _ => true
  | _ => false
  end.

(** The calls that put an item on the queue. *)
Definition is_enqueue (q : QueueCall) : bool :=
  match q with
  | Add _ | AddRateLimited _ => true
  | _ => false
  end.

(** Of the successive results of [Get], the items handed out before the
    first shutdown, and what follows that shutdown. *)
Fixpoint dequeued (gets : list (Item * bool)) : list Item :=
  match gets with
  | [] => []
  | (obj, shutdown) :: rest => if shutdown then [] else obj :: dequeued rest
  end.

Fixpoint after_shutdown (gets : list (Item * bool)) : list (Item * bool) :=
  match gets with
  | [] => []
  | (_, shutdown) :: rest => if shutdown then rest else after_shutdown rest
  end.

End Vocabulary.

Arguments Sprintf : simpl never.
Arguments Errorf : simpl never.
Arguments StreamServiceName : simpl never.

Ltac run :=
  unfold mbind, mret, M_bind, M_ret, emit, streamsUpdate, servicesCreate in *;
  simpl in *.

(** * Properties *)

Section Properties.
Context {K : StreamKind} {R : Type} `{!Clientset R}.
Implicit Types (c : Controller) (w : World R) (stream : Stream) (service : Service).

Lemma DeepCopy_eq stream : DeepCopy stream = stream.
Proof. destruct stream as [[] ? ?]; reflexivity. Qed.

Lemma IsNotFound_err_of {A} (r : result A) :
  IsNotFound (err_of r) = true ->
  exists msg, r = Err (StatusError StatusReasonNotFound msg).
Proof.
  destruct r as [a | [[] msg | text]]; simpl; try discriminate.
  intros _; exists msg; reflexivity.
Qed.

Lemma queue_calls_app (tr1 tr2 : list Effect) :
  queue_calls (tr1 ++ tr2) = queue_calls tr1 ++ queue_calls tr2.
Proof.
  induction tr1 as [| e tr1 IH]; simpl; [reflexivity |].
  destruct e; simpl; rewrite IH; reflexivity.
Qed.

(** [updateStreamStatus] makes one remote call: the whole-object Update of
    the Stream it was given. *)
Lemma updateStreamStatus_run c stream service w :
  updateStreamStatus c stream service w
  = (err_of (Streams_Update (Namespace (stream_ObjectMeta stream)) stream (remote w)).1,
     {| remote := (Streams_Update (Namespace (stream_ObjectMeta stream)) stream (remote w)).2;
        trace := trace w ++ [StreamsUpdate (Namespace (stream_ObjectMeta stream)) stream] |}).
Proof.
  unfold updateStreamStatus. rewrite DeepCopy_eq. run.
  destruct (Streams_Update _ _ _); reflexivity.
Qed.

(** C5: a key whose Stream is not found in the local cache is treated as
    already deleted: the sync returns nil, reports the stale key and makes
    no remote write (the remote state is the one it started from). *)
Theorem syncHandler_stream_absent c key namespace name w :
  SplitMetaNamespaceKey key = Ok (namespace, name) ->
  IsNotFound (err_of (streamsLister c namespace name)) = true ->
  syncHandler c key w
  = (None,
     {| remote := remote w;
        trace := trace w ++
          [HandleError (Errorf "stream '%s' in work queue no longer exists" [key])] |}).
Proof.
  intros Hkey Hnf. apply IsNotFound_err_of in Hnf as [msg Hnf].
  unfold syncHandler. rewrite Hkey, Hnf. reflexivity.
Qed.

(** C4: when the Service of the derived name is in the cache but is not
    controlled by the Stream, the sync records one Warning event and returns
    an error; it makes no remote call at all, so the colliding Service is
    neither deleted, adopted nor changed. *)
Theorem syncHandler_collision c key namespace name stream service w :
  SplitMetaNamespaceKey key = Ok (namespace, name) ->
  streamsLister c namespace name = Ok stream ->
  servicesLister c (Namespace (stream_ObjectMeta stream)) (StreamServiceName name)
    = Ok service ->
  IsControlledBy (svc_ObjectMeta service) (stream_ObjectMeta stream) = false ->
  let msg := Sprintf MessageResourceExists [Name (svc_ObjectMeta service)] in
  syncHandler c key w
  = (Some (Errorf msg []),
     {| remote := remote w;
        trace := trace w ++
          [RecorderEvent stream EventTypeWarning ErrResourceExists msg] |}).
Proof.
  intros Hkey Hstream Hsvc Hctl msg.
  unfold syncHandler. rewrite Hkey, Hstream, Hsvc. run. rewrite Hctl.
  reflexivity.
Qed.

(** The Service built by [newService] is controlled by its Stream. *)
Lemma newService_controlled stream :
  IsControlledBy (svc_ObjectMeta (newService stream)) (stream_ObjectMeta stream) = true.
Proof. unfold IsControlledBy; simpl. apply String.eqb_refl. Qed.

(** C3: when the Stream is in the cache and the lookup of its derived
    Service answers not-found, the first thing the sync does is the remote
    create of [newService stream]: derived name, the Stream's namespace, the
    label "stream" holding the Stream's name and a single owner reference,
    flagged controller, to the Stream; a failed create is returned as it
    is, with nothing else done. *)
Theorem syncHandler_creates_service c key namespace name stream w :
  SplitMetaNamespaceKey key = Ok (namespace, name) ->
  streamsLister c namespace name = Ok stream ->
  IsNotFound (err_of (servicesLister c (Namespace (stream_ObjectMeta stream))
                                       (StreamServiceName name))) = true ->
  let owner := stream_ObjectMeta stream in
  let svc := newService stream in
  let created := Services_Create (Namespace owner) svc (remote w) in
  (exists rest,
      trace (syncHandler c key w).2
      = trace w ++ ServicesCreate (Namespace owner) svc :: rest)
  /\ Name (svc_ObjectMeta svc) = StreamServiceName (Name owner)
  /\ Namespace (svc_ObjectMeta svc) = Namespace owner
  /\ Labels (svc_ObjectMeta svc) = {[ "stream" := Name owner ]}
  /\ (exists ref,
        OwnerReferences (svc_ObjectMeta svc) = [ref]
        /\ ref_Controller ref = Some true
        /\ ref_Kind ref = "Stream"
        /\ ref_Name ref = Name owner
        /\ ref_UID ref = UID owner)
  /\ IsControlledBy (svc_ObjectMeta svc) owner = true
  /\ (forall e, created.1 = Err e ->
        syncHandler c key w
        = (Some e,
           {| remote := created.2;
              trace := trace w ++ [ServicesCreate (Namespace owner) svc] |})).
Proof.
  intros Hkey Hstream Hnf owner svc created.
  assert (Hrun : syncHandler c key w
    = (got' ← servicesCreate (Namespace owner) svc;
       match got' with
       | Err err => mret (Some err)
       | Ok service =>
           if negb (IsControlledBy (svc_ObjectMeta service) owner)
           then
             let msg := Sprintf MessageResourceExists [Name (svc_ObjectMeta service)] in
             emit (RecorderEvent stream EventTypeWarning ErrResourceExists msg);;
             mret (Some (Errorf msg []))
           else
             err ← updateStreamStatus c stream service;
             match err with
             | Some e => mret (Some e)
             | None =>
                 emit (RecorderEvent stream EventTypeNormal SuccessSynced
                                     MessageResourceSynced);;
                 mret None
             end
       end) w).
  { unfold syncHandler. rewrite Hkey, Hstream. cbv zeta. rewrite Hnf. reflexivity. }
  repeat split.
  - rewrite Hrun. run. fold owner svc created.
    destruct created as [[service | e] r']; simpl.
    + destruct (IsControlledBy _ _); simpl.
      * rewrite updateStreamStatus_run; simpl.
        destruct (Streams_Update _ _ _) as [[? | ?] ?]; simpl;
          eexists; rewrite <- ?app_assoc; reflexivity.
      * eexists; rewrite <- ?app_assoc; reflexivity.
    + eexists; reflexivity.
  - eexists; repeat split; reflexivity.
  - apply newService_controlled.
  - intros e He. rewrite Hrun. run. fold owner svc created.
    destruct created as [[service | e'] r']; simpl in *; [discriminate |].
    congruence.
Qed.

(** C10: the Spec of a created Service is a constant: one port, number 80,
    of type NodePort, whatever the Stream; two created Services differ in
    name, namespace, labels and owner reference only. *)
Theorem newService_spec_constant (s1 s2 : Stream) :
  svc_Spec (newService s1)
  = {| Ports := [ {| port_Name := ""; port_Protocol := ""; port_Port := 80;
                     port_TargetPort := 0; port_NodePort := 0 |} ];
       Selector := ∅; ClusterIP := ""; Type_ := "NodePort" |}
  /\ length (Ports (svc_Spec (newService s1))) = 1
  /\ svc_Spec (newService s1) = svc_Spec (newService s2)
  /\ SelfLink (svc_ObjectMeta (newService s1)) = SelfLink (svc_ObjectMeta (newService s2))
  /\ UID (svc_ObjectMeta (newService s1)) = UID (svc_ObjectMeta (newService s2))
  /\ ResourceVersion (svc_ObjectMeta (newService s1))
     = ResourceVersion (svc_ObjectMeta (newService s2)).
Proof. repeat split. Qed.

(** The sync makes no call on the work queue. *)
Lemma syncHandler_queue_calls c key w :
  queue_calls (trace (syncHandler c key w).2) = queue_calls (trace w).
Proof.
  unfold syncHandler, updateStreamStatus. run.
  repeat case_match; simplify_eq; simpl;
    rewrite ?queue_calls_app; simpl; rewrite ?app_nil_r; reflexivity.
Qed.

(** C9: whatever the sync sends to the remote Update is the deep copy of
    the cached Stream, equal to it field for field (so the status sent is
    the cached status), in the Stream's namespace; and a sync of a cached
    Stream that returns nil has sent it. *)
Theorem syncHandler_sends_cached_stream c key namespace name stream w :
  SplitMetaNamespaceKey key = Ok (namespace, name) ->
  streamsLister c namespace name = Ok stream ->
  exists effects,
    trace (syncHandler c key w).2 = trace w ++ effects
    /\ (forall ns sent, In (StreamsUpdate ns sent) effects ->
          sent = DeepCopy stream
          /\ sent = stream
          /\ stream_Status sent = stream_Status stream
          /\ stream_Spec sent = stream_Spec stream
          /\ ns = Namespace (stream_ObjectMeta stream))
    /\ ((syncHandler c key w).1 = None ->
        In (StreamsUpdate (Namespace (stream_ObjectMeta stream)) stream) effects).
Proof.
  intros Hkey Hstream.
  unfold syncHandler, updateStreamStatus. rewrite Hkey, Hstream, DeepCopy_eq. run.
  repeat case_match; simplify_eq; simpl; rewrite <- ?app_assoc; simpl;
    first [ eexists; split; [reflexivity |]
          | exists []; split; [symmetry; apply app_nil_r |] ];
    simpl; (split; [intros ns sent Hin | intros Hnil]);
    try discriminate; intuition (try discriminate; simplify_eq; auto).
Qed.

(** C7, as the code has it: a Stream add or update notification puts the
    key of the (new) object, computed from its own namespace and name, on
    the work queue with AddRateLimited, with no filtering; the old object
    of an update is not looked at. *)
Theorem streamEventHandler_enqueues c (oldObj obj : Stream) w :
  let enqueued :=
    (tt, {| remote := remote w;
            trace := trace w ++
              [Queue (AddRateLimited
                        (ItemString (MetaNamespaceKey (stream_ObjectMeta obj))))] |}) in
  streamEventHandler c (OnAdd obj) w = enqueued
  /\ streamEventHandler c (OnUpdate oldObj obj) w = enqueued.
Proof. split; reflexivity. Qed.

(** The handlers of the Service informer: add and delete go to
    [handleObject], and so does an update with a new resourceVersion. *)
Lemma serviceEventHandler_handleObject c (n : Notification Service) w :
  is_resync n = false ->
  serviceEventHandler c n w = handleObject c (notified n) w.
Proof.
  destruct n as [obj | oldObj newObj | obj]; simpl; try reflexivity.
  intros Hrv. case_bool_decide; [discriminate |].
  apply String.eqb_neq in H. rewrite H. reflexivity.
Qed.

(** An update that carries the resourceVersion already seen is dropped
    before [handleObject]. *)
Lemma serviceEventHandler_resync c (n : Notification Service) w :
  is_resync n = true -> serviceEventHandler c n w = (tt, w).
Proof.
  destruct n as [obj | oldObj newObj | obj]; simpl; try discriminate.
  intros Hrv. case_bool_decide; [| discriminate].
  rewrite H, String.eqb_refl. reflexivity.
Qed.

(** [handleObject] on an object with metadata, live or kept in a
    tombstone: the decoding step yields that metadata and reports nothing. *)
Lemma handleObject_decoded c obj object w :
  lastKnown obj = Some object ->
  handleObject c obj w
  = match GetControllerOf object with
    | Some ownerRef =>
        if negb (String.eqb (ref_Kind ownerRef) "Stream") then (tt, w)
        else
          match streamsLister c (Namespace object) (ref_Name ownerRef) with
          | Err _ => (tt, w)
          | Ok stream => enqueueStream c (IObject (ObjStream stream)) w
          end
    | None => (tt, w)
    end.
Proof.
  intros Hobj. unfold handleObject.
  destruct obj as [o | tk [o |] | ek |]; simpl in Hobj; simplify_eq; run;
    repeat case_match; reflexivity.
Qed.

(** C6, as the code has it: a Service notification that reaches
    [handleObject] (an add, a delete, tombstones included, or an update with
    a new resourceVersion) is dropped, with nothing enqueued and nothing
    reported, when the object has no controlling owner reference, when that
    reference is not of kind Stream, or when the lister does not find the
    Stream; otherwise exactly one key is enqueued, the key of the owning
    Stream.  An update with the resourceVersion already seen enqueues
    nothing. *)
Theorem serviceEventHandler_routes c (n : Notification Service) object w :
  lastKnown (notified n) = Some object ->
  (is_resync n = true -> serviceEventHandler c n w = (tt, w))
  /\ (is_resync n = false ->
      (GetControllerOf object = None -> serviceEventHandler c n w = (tt, w))
      /\ (forall ref, GetControllerOf object = Some ref ->
            ref_Kind ref <> "Stream" -> serviceEventHandler c n w = (tt, w))
      /\ (forall ref e, GetControllerOf object = Some ref ->
            streamsLister c (Namespace object) (ref_Name ref) = Err e ->
            serviceEventHandler c n w = (tt, w))
      /\ (forall ref stream, GetControllerOf object = Some ref ->
            ref_Kind ref = "Stream" ->
            streamsLister c (Namespace object) (ref_Name ref) = Ok stream ->
            serviceEventHandler c n w
            = (tt, {| remote := remote w;
                      trace := trace w ++
                        [Queue (AddRateLimited
                           (ItemString (MetaNamespaceKey (stream_ObjectMeta stream))))] |}))).
Proof.
  intros Hobj. split; [apply serviceEventHandler_resync |].
  intros Hgate.
  rewrite (serviceEventHandler_handleObject c n w Hgate),
          (handleObject_decoded c (notified n) object w Hobj).
  repeat split.
  - intros Hnone. rewrite Hnone. reflexivity.
  - intros ref Href Hkind. rewrite Href.
    apply String.eqb_neq in Hkind. rewrite Hkind. reflexivity.
  - intros ref e Href Hget. rewrite Href, Hget.
    destruct (negb _); reflexivity.
  - intros ref stream Href Hkind Hget. rewrite Href, Hget, Hkind. reflexivity.
Qed.

Lemma runWorker_cons c got rest w :
  runWorker c (got :: rest) w
  = let (continue, w') := processNextWorkItem c got w in
    if continue then runWorker c rest w' else (rest, w').
Proof.
  simpl. unfold mbind, M_bind.
  destruct (processNextWorkItem c got w) as [[] w']; reflexivity.
Qed.

(** C1, as the code has it: when the sync of a dequeued key fails, the
    dispatch step calls Done on the item and nothing else on the work queue
    (no Forget, and no AddRateLimited either: the key is not put back),
    reports the error and returns true, so that the worker goes on to the
    next item. *)
Theorem processNextWorkItem_failure c key err w :
  (syncHandler c key w).1 = Some err ->
  let step := processNextWorkItem c (ItemString key, false) w in
  step.1 = true
  /\ queue_calls (trace step.2) = queue_calls (trace w) ++ [Done (ItemString key)]
  /\ trace step.2
     = trace (syncHandler c key w).2 ++
       [Queue (Done (ItemString key));
        HandleError (Errorf "error syncing '%s': %s" [key; Error err])]
  /\ (forall rest, runWorker c ((ItemString key, false) :: rest) w
                   = runWorker c rest step.2).
Proof.
  intros Hsync step.
  assert (Hstep : step
    = (true,
       {| remote := remote (syncHandler c key w).2;
          trace := trace (syncHandler c key w).2 ++
            [Queue (Done (ItemString key));
             HandleError (Errorf "error syncing '%s': %s" [key; Error err])] |})).
  { subst step. unfold processNextWorkItem, processItem. run.
    destruct (syncHandler c key w) as [res w']; simpl in *. subst res. simpl.
    rewrite <- app_assoc. reflexivity. }
  repeat split.
  - rewrite Hstep. reflexivity.
  - rewrite Hstep. simpl.
    rewrite queue_calls_app, syncHandler_queue_calls. reflexivity.
  - rewrite Hstep. reflexivity.
  - intros rest. rewrite runWorker_cons. fold step.
    rewrite Hstep. reflexivity.
Qed.

End Properties.

(** ** The sync of a Stream whose Service is in the cache and controlled *)

Section OwnedPair.
Context {K : StreamKind} {R : Type} `{!Clientset R}.
Implicit Types (c : Controller) (w : World R) (stream : Stream) (service : Service).

(** With the Stream and its controlled Service in the cache, the sync is
    the Update of the cached Stream, followed by the Synced event when the
    store accepts it. *)
Lemma syncHandler_owned_pair c key namespace name stream service w :
  SplitMetaNamespaceKey key = Ok (namespace, name) ->
  streamsLister c namespace name = Ok stream ->
  servicesLister c (Namespace (stream_ObjectMeta stream)) (StreamServiceName name)
    = Ok service ->
  IsControlledBy (svc_ObjectMeta service) (stream_ObjectMeta stream) = true ->
  let ns := Namespace (stream_ObjectMeta stream) in
  let updated := Streams_Update ns stream (remote w) in
  syncHandler c key w
  = match updated.1 with
    | Err e =>
        (Some e,
         {| remote := updated.2; trace := trace w ++ [StreamsUpdate ns stream] |})
    | Ok _ =>
        (None,
         {| remote := updated.2;
            trace := trace w ++
              [StreamsUpdate ns stream;
               RecorderEvent stream EventTypeNormal SuccessSynced
                             MessageResourceSynced] |})
    end.
Proof.
  intros Hkey Hstream Hsvc Hctl ns updated.
  unfold syncHandler. rewrite Hkey, Hstream, Hsvc.
  unfold mbind, M_bind, mret, M_ret. cbn [err_of IsNotFound]. rewrite Hctl.
  change (negb true) with false. cbv beta iota.
  rewrite updateStreamStatus_run. fold ns updated.
  destruct updated as [[s' | e'] r']; simpl; [| reflexivity].
  unfold emit. cbn [remote trace]. rewrite <- app_assoc. reflexivity.
Qed.

End OwnedPair.

(** ** The sync against the object tracker *)

Section TrackerProperties.
Context {K : StreamKind}.
Implicit Types (c : Controller) (t : Tracker) (stream : Stream) (service : Service).

Lemma withNamespace_same (m : ObjectMeta) : withNamespace (Namespace m) m = m.
Proof.
  unfold withNamespace. destruct (_ =? 0)%nat; [destruct m |]; reflexivity.
Qed.

(** An update sent under the Stream's own namespace. *)
Lemma tracker_update_stream_run stream t :
  let m := stream_ObjectMeta stream in
  tracker_update_stream (Namespace m) stream t
  = match tracked_streams t !! (Namespace m, Name m) with
    | None => (Err (StatusError StatusReasonNotFound (Name m)), t)
    | Some _ =>
        (Ok stream,
         {| tracked_services := tracked_services t;
            tracked_streams := <[(Namespace m, Name m) := stream]> (tracked_streams t) |})
    end.
Proof.
  destruct stream as [m spec status]. unfold tracker_update_stream. cbn.
  rewrite withNamespace_same, String.eqb_refl. reflexivity.
Qed.

(** A create sent under the Service's own namespace. *)
Lemma tracker_create_service_run service t :
  let m := svc_ObjectMeta service in
  tracker_create_service (Namespace m) service t
  = match tracked_services t !! (Namespace m, Name m) with
    | Some _ => (Err (StatusError StatusReasonAlreadyExists (Name m)), t)
    | None =>
        (Ok service,
         {| tracked_services := <[(Namespace m, Name m) := service]> (tracked_services t);
            tracked_streams := tracked_streams t |})
    end.
Proof.
  destruct service as [m spec]. unfold tracker_create_service. cbn.
  rewrite withNamespace_same, String.eqb_refl. reflexivity.
Qed.

(** With the Stream and its controlled Service in the cache, and a Stream
    of that name in the store, the sync is one whole-object Update followed
    by the Synced event. *)
Lemma syncHandler_converged c key namespace name stream service t tr :
  SplitMetaNamespaceKey key = Ok (namespace, name) ->
  streamsLister c namespace name = Ok stream ->
  servicesLister c (Namespace (stream_ObjectMeta stream)) (StreamServiceName name)
    = Ok service ->
  IsControlledBy (svc_ObjectMeta service) (stream_ObjectMeta stream) = true ->
  is_Some (tracked_streams t
             !! (Namespace (stream_ObjectMeta stream), Name (stream_ObjectMeta stream))) ->
  syncHandler c key {| remote := t; trace := tr |}
  = (None,
     {| remote :=
          {| tracked_services := tracked_services t;
             tracked_streams :=
               <[(Namespace (stream_ObjectMeta stream), Name (stream_ObjectMeta stream))
                 := stream]> (tracked_streams t) |};
        trace := tr ++
          [StreamsUpdate (Namespace (stream_ObjectMeta stream)) stream;
           RecorderEvent stream EventTypeNormal SuccessSynced MessageResourceSynced] |}).
Proof.
  intros Hkey Hstream Hsvc Hctl [old Hold].
  unfold syncHandler. rewrite Hkey, Hstream, Hsvc.
  unfold mbind, M_bind, mret, M_ret. cbn [err_of IsNotFound]. rewrite Hctl.
  change (negb true) with false. cbv beta iota.
  rewrite updateStreamStatus_run. cbn [remote trace].
  unfold Streams_Update, tracker_clientset.
  rewrite tracker_update_stream_run. cbv zeta. rewrite Hold. cbn [negb fst snd err_of].
  unfold emit. cbn [remote trace]. rewrite <- app_assoc. reflexivity.
Qed.

(** C2, as the code has it: with the Stream and its controlled Service in
    the cache, the sync makes one remote write, the whole-object Update of
    the Stream, and the object it sends is the cached Stream with no field
    changed: its Spec, its metadata and its Status are the cached ones.
    The result of the sync is the answer of that Update and the remote
    state after the sync is the one that Update leaves.  On the object
    tracker, which applies an update as sent, a store that holds a Stream
    of that name then holds the cached Stream, Spec included, and nothing
    else in it has changed. *)
Theorem syncHandler_status_write c key namespace name stream service :
  SplitMetaNamespaceKey key = Ok (namespace, name) ->
  streamsLister c namespace name = Ok stream ->
  servicesLister c (Namespace (stream_ObjectMeta stream)) (StreamServiceName name)
    = Ok service ->
  IsControlledBy (svc_ObjectMeta service) (stream_ObjectMeta stream) = true ->
  let ns := Namespace (stream_ObjectMeta stream) in
  (forall (R : Type) (clientset : Clientset R) (w : World R),
      let updated := Streams_Update ns stream (remote w) in
      let run := syncHandler c key w in
      (exists sent,
          filter is_remote_write (trace run.2)
          = filter is_remote_write (trace w) ++ [StreamsUpdate ns sent]
          /\ sent = DeepCopy stream
          /\ stream_Spec sent = stream_Spec stream
          /\ stream_ObjectMeta sent = stream_ObjectMeta stream
          /\ stream_Status sent = stream_Status stream)
      /\ run.1 = err_of updated.1
      /\ remote run.2 = updated.2)
  /\ (forall (t : Tracker) tr old,
        tracked_streams t !! (ns, Name (stream_ObjectMeta stream)) = Some old ->
        let stored := remote (syncHandler c key {| remote := t; trace := tr |}).2 in
        tracked_streams stored !! (ns, Name (stream_ObjectMeta stream)) = Some stream
        /\ (forall k, k <> (ns, Name (stream_ObjectMeta stream)) ->
              tracked_streams stored !! k = tracked_streams t !! k)
        /\ tracked_services stored = tracked_services t).
Proof.
  intros Hkey Hstream Hsvc Hctl ns. split.
  - intros R clientset w updated run.
    assert (Hrun := syncHandler_owned_pair c key namespace name stream service w
                      Hkey Hstream Hsvc Hctl).
    cbv zeta in Hrun. subst run updated. fold ns in Hrun |- *.
    rewrite Hrun.
    destruct (Streams_Update ns stream (remote w)) as [[s' | e'] r']; simpl;
      (split; [exists stream; rewrite filter_app, DeepCopy_eq; repeat split |]);
      split; reflexivity.
  - intros t tr old Hold stored.
    assert (Hrun := syncHandler_converged c key namespace name stream service t tr
                      Hkey Hstream Hsvc Hctl (ex_intro _ old Hold)).
    subst stored. rewrite Hrun. cbn [snd remote tracked_streams tracked_services].
    repeat split.
    + apply lookup_insert_eq.
    + intros k Hne. apply lookup_insert_ne.
      intros Heq. apply Hne. rewrite <- Heq. reflexivity.
Qed.

(** C8, as the code has it: with a Stream and its controlled Service in the
    cache, each of two successive syncs makes one remote write, the Update
    of the cached Stream, and no create, whatever the store answers.  On
    the object tracker: when the store holds a Stream of that name, both
    runs return nil, the second leaves the store as the first left it and
    the stored Services are as before; when it does not, both runs return
    the store's not-found error and the store is unchanged. *)
Theorem syncHandler_idempotent c key namespace name stream service :
  SplitMetaNamespaceKey key = Ok (namespace, name) ->
  streamsLister c namespace name = Ok stream ->
  servicesLister c (Namespace (stream_ObjectMeta stream)) (StreamServiceName name)
    = Ok service ->
  IsControlledBy (svc_ObjectMeta service) (stream_ObjectMeta stream) = true ->
  let ns := Namespace (stream_ObjectMeta stream) in
  let k := (ns, Name (stream_ObjectMeta stream)) in
  (forall (R : Type) (clientset : Clientset R) (w : World R),
      let once := syncHandler c key w in
      let twice := syncHandler c key once.2 in
      filter is_remote_write (trace once.2)
      = filter is_remote_write (trace w) ++ [StreamsUpdate ns stream]
      /\ filter is_remote_write (trace twice.2)
         = filter is_remote_write (trace w)
           ++ [StreamsUpdate ns stream; StreamsUpdate ns stream])
  /\ (forall t : Tracker,
        let once := syncHandler c key {| remote := t; trace := [] |} in
        let twice := syncHandler c key {| remote := remote once.2; trace := [] |} in
        (is_Some (tracked_streams t !! k) ->
         once.1 = None
         /\ twice.1 = None
         /\ remote twice.2 = remote once.2
         /\ tracked_services (remote twice.2) = tracked_services t)
        /\ (tracked_streams t !! k = None ->
            once.1 = Some (StatusError StatusReasonNotFound (Name (stream_ObjectMeta stream)))
            /\ twice.1 = once.1
            /\ remote once.2 = t
            /\ remote twice.2 = t)).
Proof.
  intros Hkey Hstream Hsvc Hctl ns k. split.
  - intros R clientset w once twice.
    assert (Hwrites : forall w0 : World R,
      filter is_remote_write (trace (syncHandler c key w0).2)
      = filter is_remote_write (trace w0) ++ [StreamsUpdate ns stream]).
    { intros w0.
      rewrite (syncHandler_owned_pair c key namespace name stream service w0
                 Hkey Hstream Hsvc Hctl).
      fold ns. destruct (Streams_Update ns stream (remote w0)) as [[s' | e'] r']; simpl;
        rewrite filter_app; reflexivity. }
    split; [apply Hwrites |].
    subst twice. rewrite Hwrites. subst once. rewrite Hwrites, <- app_assoc. reflexivity.
  - intros t once twice. split.
    + intros Hin.
      assert (Honce := syncHandler_converged c key namespace name stream service t []
                         Hkey Hstream Hsvc Hctl Hin).
      fold once in Honce.
      assert (Htwice := syncHandler_converged c key namespace name stream service
                          (remote once.2) [] Hkey Hstream Hsvc Hctl).
      fold twice in Htwice. rewrite Honce in Htwice.
      cbn [snd remote tracked_streams] in Htwice.
      rewrite lookup_insert_eq, insert_insert_eq in Htwice.
      specialize (Htwice (ex_intro _ stream eq_refl)).
      rewrite Htwice, Honce. cbn [fst snd remote trace tracked_services].
      repeat split; reflexivity.
    + intros Hnone.
      assert (Hfail : forall tr,
        syncHandler c key {| remote := t; trace := tr |}
        = (Some (StatusError StatusReasonNotFound (Name (stream_ObjectMeta stream))),
           {| remote := t; trace := tr ++ [StreamsUpdate ns stream] |})).
      { intros tr.
        rewrite (syncHandler_owned_pair (R := Tracker) c key namespace name stream service
                   {| remote := t; trace := tr |} Hkey Hstream Hsvc Hctl).
        cbn [remote trace]. unfold Streams_Update, tracker_clientset.
        rewrite tracker_update_stream_run. cbv zeta. fold ns k. rewrite Hnone.
        reflexivity. }
      assert (Honce : once
        = (Some (StatusError StatusReasonNotFound (Name (stream_ObjectMeta stream))),
           {| remote := t; trace := [] ++ [StreamsUpdate ns stream] |}))
        by apply Hfail.
      subst twice. rewrite Honce. cbn [fst snd remote]. rewrite Hfail.
      repeat split; reflexivity.
Qed.

End TrackerProperties.

(** * The theorems at concrete inputs *)

Section Instances.
Import Sample.

(** C5 at a cache without Streams. *)
Lemma syncHandler_stream_absent_witness :
  SplitMetaNamespaceKey "ns/s1" = Ok ("ns", "s1")
  /\ IsNotFound (err_of (streamsLister (controller [] []) "ns" "s1")) = true
  /\ syncHandler (controller [] []) "ns/s1" (world (tracker [] []))
     = (None,
        {| remote := tracker [] [];
           trace := [HandleError
                       (Errorf "stream '%s' in work queue no longer exists" ["ns/s1"])] |}).
Proof.
  split; [reflexivity |]. split; [reflexivity |].
  apply (syncHandler_stream_absent (controller [] []) "ns/s1" "ns" "s1"
           (world (tracker [] []))); reflexivity.
Defined.

(** C4 at a Service of the derived name without owner. *)
Lemma syncHandler_collision_witness :
  IsControlledBy (svc_ObjectMeta foreign) (stream_ObjectMeta s1) = false
  /\ (syncHandler (controller [s1] [foreign]) "ns/s1" (world (tracker [s1] [foreign])))
     = (Some (Errorf (Sprintf MessageResourceExists ["s1-stream"]) []),
        {| remote := tracker [s1] [foreign];
           trace := [RecorderEvent s1 EventTypeWarning ErrResourceExists
                       (Sprintf MessageResourceExists ["s1-stream"])] |}).
Proof.
  split; [reflexivity |].
  apply (syncHandler_collision (controller [s1] [foreign]) "ns/s1" "ns" "s1" s1 foreign
           (world (tracker [s1] [foreign]))); reflexivity.
Defined.

(** C3 at a Stream without Service. *)
Lemma syncHandler_creates_service_witness :
  IsNotFound (err_of (servicesLister (controller [s1] []) "ns" (StreamServiceName "s1")))
  = true
  /\ exists rest,
       trace (syncHandler (controller [s1] []) "ns/s1" (world (tracker [s1] []))).2
       = [] ++ ServicesCreate "ns" (newService s1) :: rest.
Proof.
  split; [reflexivity |].
  apply (syncHandler_creates_service (controller [s1] []) "ns/s1" "ns" "s1" s1
           (world (tracker [s1] []))); reflexivity.
Defined.

(** C9 at a Stream with its Service. *)
Lemma syncHandler_sends_cached_stream_witness :
  exists effects,
    trace (syncHandler (controller [s1] [svc1]) "ns/s1" (world (tracker [s1] [svc1]))).2
    = [] ++ effects
    /\ (forall ns sent, In (StreamsUpdate ns sent) effects ->
          sent = DeepCopy s1 /\ sent = s1 /\ stream_Status sent = stream_Status s1
          /\ stream_Spec sent = stream_Spec s1 /\ ns = "ns")
    /\ ((syncHandler (controller [s1] [svc1]) "ns/s1" (world (tracker [s1] [svc1]))).1 = None ->
        In (StreamsUpdate "ns" s1) effects).
Proof.
  apply (syncHandler_sends_cached_stream (controller [s1] [svc1]) "ns/s1" "ns" "s1" s1
           (world (tracker [s1] [svc1]))); reflexivity.
Defined.

(** C6 (as the code has it) at the tombstone of a deleted Service owned
    by [s1]. *)
Lemma serviceEventHandler_routes_witness :
  let n := OnDelete (ITombstone "ns/s1-stream" (Some (ObjService svc1))) in
  lastKnown (notified n) = Some (svc_ObjectMeta svc1)
  /\ serviceEventHandler (controller [s1] [svc1]) n (world (tracker [s1] [svc1]))
     = (tt, {| remote := tracker [s1] [svc1];
               trace := [Queue (AddRateLimited (ItemString "ns/s1"))] |}).
Proof.
  intros n. split; [reflexivity |].
  destruct (serviceEventHandler_routes (controller [s1] [svc1]) n (svc_ObjectMeta svc1)
              (world (tracker [s1] [svc1])) eq_refl)
    as (_ & Hroute).
  destruct (Hroute eq_refl) as (_ & _ & _ & Henqueue).
  apply (Henqueue (NewControllerRef (stream_ObjectMeta s1)
                     {| gvk_Group := SchemeGroup; gvk_Version := SchemeVersion;
                        gvk_Kind := "Stream" |}) s1); reflexivity.
Defined.

(** C6 as stated fails: an update notification that carries the
    resourceVersion already seen enqueues nothing, although the Service has
    a controlling owner reference of kind Stream and the Stream is in the
    cache. *)
Lemma serviceEventHandler_resync_enqueues_nothing :
  let c := controller [s1] [svc1] in
  let w := world (tracker [s1] [svc1]) in
  (exists ref, GetControllerOf (svc_ObjectMeta svc1) = Some ref
               /\ ref_Kind ref = "Stream"
               /\ streamsLister c (Namespace (svc_ObjectMeta svc1)) (ref_Name ref) = Ok s1)
  /\ serviceEventHandler c (OnUpdate svc1 svc1) w = (tt, w)
  /\ queue_calls (trace (serviceEventHandler c (OnUpdate svc1 svc1) w).2)
     <> [AddRateLimited (ItemString "ns/s1")].
Proof.
  repeat split.
  - eexists; repeat split; reflexivity.
  - vm_compute. discriminate.
Qed.

(** C1 at a key whose sync fails: the cache has not yet seen the Service
    that the store already holds, so the create is refused. *)
Lemma processNextWorkItem_failure_witness :
  let c := controller [s1] [] in
  let w := world (tracker [s1] [svc1]) in
  let step := processNextWorkItem c (ItemString "ns/s1", false) w in
  (syncHandler c "ns/s1" w).1 = Some (StatusError StatusReasonAlreadyExists "s1-stream")
  /\ step.1 = true
  /\ queue_calls (trace step.2) = [Done (ItemString "ns/s1")].
Proof.
  intros c w step.
  assert (Hfail : (syncHandler c "ns/s1" w).1
                  = Some (StatusError StatusReasonAlreadyExists "s1-stream"))
    by reflexivity.
  split; [exact Hfail |].
  destruct (processNextWorkItem_failure c "ns/s1"
              (StatusError StatusReasonAlreadyExists "s1-stream") w Hfail)
    as (Htrue & Hcalls & _).
  split; [exact Htrue | exact Hcalls].
Defined.

(** C2 (as the code has it) at a Stream with its Service. *)
Lemma syncHandler_status_write_witness :
  let w := world (tracker [s1] [svc1]) in
  let run := syncHandler (controller [s1] [svc1]) "ns/s1" w in
  (exists sent,
      filter is_remote_write (trace run.2)
      = filter is_remote_write (trace w) ++ [StreamsUpdate "ns" sent]
      /\ sent = DeepCopy s1
      /\ stream_Spec sent = stream_Spec s1
      /\ stream_ObjectMeta sent = stream_ObjectMeta s1
      /\ stream_Status sent = stream_Status s1)
  /\ run.1 = None.
Proof.
  intros w run.
  destruct (syncHandler_status_write (controller [s1] [svc1]) "ns/s1" "ns" "s1" s1 svc1
              eq_refl eq_refl eq_refl eq_refl)
    as (Hgeneral & _).
  destruct (Hgeneral Tracker _ w) as (Hsent & Hres & _).
  split; [exact Hsent | exact Hres].
Defined.

(** C2 as stated fails: the update path used can alter the Spec.  Cache and
    store hold the same [s1]; the sync succeeds and its one remote write is
    the whole-object Update.  That same Update, called with the stored
    Stream edited in its Spec only (same name, UID and resourceVersion, as
    a client that read it would send), is accepted and changes the stored
    Spec. *)
Lemma update_path_alters_spec :
  let store := tracker [s1] [svc1] in
  let run := syncHandler (controller [s1] [svc1]) "ns/s1" {| remote := store; trace := [] |} in
  let edited := Streams_Update "ns" s1_edited store in
  run.1 = None
  /\ filter is_remote_write (trace run.2) = [StreamsUpdate "ns" s1]
  /\ stream_ObjectMeta s1_edited = stream_ObjectMeta s1
  /\ edited.1 = Ok s1_edited
  /\ stream_Spec <$> tracked_streams store !! ("ns", "s1") = Some "spec-b"
  /\ stream_Spec <$> tracked_streams edited.2 !! ("ns", "s1") = Some "spec-a"
  /\ stream_Spec <$> tracked_streams edited.2 !! ("ns", "s1")
     <> stream_Spec <$> tracked_streams store !! ("ns", "s1").
Proof. repeat split; try reflexivity. vm_compute. discriminate. Qed.

(** C8 (as the code has it) at a Stream with its Service. *)
Lemma syncHandler_idempotent_witness :
  let once := syncHandler (controller [s1] [svc1]) "ns/s1"
                {| remote := tracker [s1] [svc1]; trace := [] |} in
  let twice := syncHandler (controller [s1] [svc1]) "ns/s1"
                 {| remote := remote once.2; trace := [] |} in
  once.1 = None /\ twice.1 = None /\ remote twice.2 = remote once.2
  /\ filter is_remote_write (trace once.2 ++ trace twice.2)
     = [StreamsUpdate "ns" s1; StreamsUpdate "ns" s1].
Proof.
  intros once twice.
  destruct (syncHandler_idempotent (controller [s1] [svc1]) "ns/s1" "ns" "s1" s1 svc1
              eq_refl eq_refl eq_refl eq_refl)
    as (_ & Htracker).
  destruct (Htracker (tracker [s1] [svc1])) as (Hheld & _).
  destruct (Hheld (ex_intro _ s1 eq_refl)) as (H1 & H2 & H3 & _).
  repeat split; first [assumption | reflexivity].
Defined.

(** C8 as stated fails: the cache holds [s1] and its controlled Service,
    but the store no longer holds the Stream; the Update is refused and the
    runs do not succeed. *)
Lemma syncHandler_twice_fails_without_stream :
  let c := controller [s1] [svc1] in
  let once := syncHandler c "ns/s1" {| remote := tracker [] [svc1]; trace := [] |} in
  let twice := syncHandler c "ns/s1" {| remote := remote once.2; trace := [] |} in
  streamsLister c "ns" "s1" = Ok s1
  /\ servicesLister c "ns" (StreamServiceName "s1") = Ok svc1
  /\ IsControlledBy (svc_ObjectMeta svc1) (stream_ObjectMeta s1) = true
  /\ once.1 = Some (StatusError StatusReasonNotFound "s1")
  /\ twice.1 = Some (StatusError StatusReasonNotFound "s1")
  /\ once.1 <> None.
Proof. repeat split; try reflexivity. vm_compute. discriminate. Qed.

(** C7 as stated fails: the add of a Stream is not enqueued with Add. *)
Lemma streamEventHandler_not_Add :
  trace (streamEventHandler (controller [s1] []) (OnAdd s1) (world (tracker [s1] []))).2
  <> [Queue (Add (ItemString "ns/s1"))]
  /\ trace (streamEventHandler (controller [s1] []) (OnUpdate s1_stored s1)
              (world (tracker [s1] []))).2
     <> [Queue (Add (ItemString "ns/s1"))].
Proof. split; vm_compute; discriminate. Qed.

End Instances.

(** * Further properties of the dispatch loop and of object keys *)

Section DispatchProperties.
Context {K : StreamKind} {R : Type} `{!Clientset R}.
Implicit Types (c : Controller) (w : World R) (stream : Stream) (service : Service).

Lemma split_slash_length (s cur : string) :
  length (split_slash s cur) = S (count_slash s).
Proof.
  revert cur. induction s as [| ch rest IH]; intros cur; simpl; [reflexivity |].
  destruct (Ascii.eqb ch "/"); simpl; rewrite IH; reflexivity.
Qed.

Lemma split_slash_plain (s cur : string) :
  count_slash s = 0 -> split_slash s cur = [String.rev_app cur s].
Proof.
  revert cur. induction s as [| ch rest IH]; intros cur Hs; simpl in *; [reflexivity |].
  destruct (Ascii.eqb ch "/"); [discriminate |]. rewrite IH by exact Hs. reflexivity.
Qed.

Lemma split_slash_at (a b cur : string) :
  count_slash a = 0 ->
  split_slash (a +:+ String "/"%char b) cur
  = String.rev_app cur a :: split_slash b EmptyString.
Proof.
  revert cur. induction a as [| ch rest IH]; intros cur Ha; simpl in *; [reflexivity |].
  destruct (Ascii.eqb ch "/"); [discriminate |]. rewrite IH by exact Ha. reflexivity.
Qed.

(** X1: a key is refused by [SplitMetaNamespaceKey], which is what makes it
    an invalid resource key for the sync, exactly when it has two or more
    slashes. *)
Theorem SplitMetaNamespaceKey_malformed (key : string) :
  SplitMetaNamespaceKey key = Err (Errorf "unexpected key format: %q" [key])
  <-> 2 <= count_slash key.
Proof.
  unfold SplitMetaNamespaceKey.
  pose proof (split_slash_length key EmptyString) as Hlen.
  destruct (split_slash key EmptyString) as [| a [| b [| d l]]]; simpl in Hlen;
    split; intros H; try discriminate; try lia; reflexivity.
Qed.

Lemma split_key_of_meta (meta : ObjectMeta) :
  count_slash (Namespace meta) = 0 ->
  count_slash (Name meta) = 0 ->
  SplitMetaNamespaceKey (MetaNamespaceKey meta) = Ok (Namespace meta, Name meta).
Proof.
  intros Hns Hname. unfold MetaNamespaceKey, SplitMetaNamespaceKey.
  destruct (Namespace meta) as [| ch ns] eqn:Ens.
  - simpl. rewrite split_slash_plain by exact Hname. reflexivity.
  - cbn [String.length Nat.ltb Nat.leb].
    change (String ch ns +:+ "/" +:+ Name meta)
      with (String ch ns +:+ String "/"%char (Name meta)).
    rewrite split_slash_at by exact Hns.
    rewrite split_slash_plain by exact Hname. reflexivity.
Qed.

(** X2: the key an object gets from its namespace and name splits back into
    that namespace and name, when neither contains a slash; so the key that
    a Stream notification puts on the queue names that Stream to the sync. *)
Theorem enqueued_key_round_trip c (obj : Stream) w :
  count_slash (Namespace (stream_ObjectMeta obj)) = 0 ->
  count_slash (Name (stream_ObjectMeta obj)) = 0 ->
  exists key,
    trace (streamEventHandler c (OnAdd obj) w).2
    = trace w ++ [Queue (AddRateLimited (ItemString key))]
    /\ SplitMetaNamespaceKey key
       = Ok (Namespace (stream_ObjectMeta obj), Name (stream_ObjectMeta obj)).
Proof.
  intros Hns Hname. exists (MetaNamespaceKey (stream_ObjectMeta obj)).
  split; [reflexivity |]. apply split_key_of_meta; assumption.
Qed.

(** What one dispatch step does on the queue, for an item handed out
    without shutdown: Done, preceded by Forget or not. *)
Lemma processNextWorkItem_calls c obj w :
  let step := processNextWorkItem c (obj, false) w in
  step.1 = true
  /\ exists calls,
       queue_calls (trace step.2) = queue_calls (trace w) ++ calls
       /\ (calls = [Done obj] \/ calls = [Forget obj; Done obj]).
Proof.
  unfold processNextWorkItem, processItem.
  destruct obj as [key | gosyntax]; run.
  - pose proof (syncHandler_queue_calls c key w) as Hsync.
    destruct (syncHandler c key w) as [[err |] w']; simpl in *;
      (split; [reflexivity |]); rewrite !queue_calls_app, Hsync; simpl;
      rewrite ?app_nil_r, <- ?app_assoc; eexists; split; try reflexivity; auto.
  - split; [reflexivity |]. rewrite !queue_calls_app. simpl.
    rewrite ?app_nil_r, <- ?app_assoc. eexists; split; try reflexivity; auto.
Qed.

Lemma malformed_key_split (key : string) :
  2 <= count_slash key ->
  SplitMetaNamespaceKey key = Err (Errorf "unexpected key format: %q" [key]).
Proof.
  intros Hkey. unfold SplitMetaNamespaceKey.
  pose proof (split_slash_length key EmptyString) as Hlen.
  destruct (split_slash key EmptyString) as [| a [| b [| d l]]]; simpl in Hlen;
    try lia; reflexivity.
Qed.

(** X3: a dequeued key with two or more slashes is dropped for good: the
    sync reports it as invalid without consulting a lister or the remote
    store, and the dispatch step then calls Forget and Done and goes on. *)
Theorem processNextWorkItem_malformed_key c key w :
  2 <= count_slash key ->
  processNextWorkItem c (ItemString key, false) w
  = (true,
     {| remote := remote w;
        trace := trace w ++
          [HandleError (Errorf "invalid resource key: %s" [key]);
           Queue (Forget (ItemString key));
           Queue (Done (ItemString key))] |}).
Proof.
  intros Hkey. unfold processNextWorkItem, processItem, syncHandler.
  rewrite (malformed_key_split key Hkey). run. rewrite <- !app_assoc. reflexivity.
Qed.

(** X4: the retry bookkeeping of a dequeued key is cleared exactly when its
    sync returned nil: the step calls Forget then Done after a nil result,
    and Done alone after an error. *)
Theorem processNextWorkItem_forget_iff_nil c key w :
  let step := processNextWorkItem c (ItemString key, false) w in
  queue_calls (trace step.2)
  = queue_calls (trace w) ++
    (if (syncHandler c key w).1 is None
     then [Forget (ItemString key); Done (ItemString key)]
     else [Done (ItemString key)])
  /\ (In (Forget (ItemString key)) (drop (length (queue_calls (trace w)))
                                         (queue_calls (trace step.2)))
      <-> (syncHandler c key w).1 = None).
Proof.
  intros step.
  assert (Hcalls : queue_calls (trace step.2)
    = queue_calls (trace w) ++
      (if (syncHandler c key w).1 is None
       then [Forget (ItemString key); Done (ItemString key)]
       else [Done (ItemString key)])).
  { subst step. unfold processNextWorkItem, processItem. run.
    pose proof (syncHandler_queue_calls c key w) as Hsync.
    destruct (syncHandler c key w) as [[err |] w']; simpl in *;
      rewrite !queue_calls_app, Hsync; simpl;
      rewrite ?app_nil_r, <- ?app_assoc; reflexivity. }
  split; [exact Hcalls |].
  rewrite Hcalls, drop_app_length.
  destruct ((syncHandler c key w).1) as [err |]; simpl; split; intros H;
    try discriminate; intuition discriminate.
Qed.

(** X5: a worker calls Done exactly once for every item it was handed, in
    the order of the hand-outs, stops at the first shutdown and leaves what
    follows it untouched. *)
Theorem runWorker_done_once c (gets : list (Item * bool)) w :
  let run := runWorker c gets w in
  run.1 = after_shutdown gets
  /\ filter is_Done (queue_calls (trace run.2))
     = filter is_Done (queue_calls (trace w)) ++ map Done (dequeued gets).
Proof.
  revert w. induction gets as [| [obj shutdown] rest IH]; intros w.
  - simpl. rewrite app_nil_r. split; reflexivity.
  - cbv zeta. rewrite runWorker_cons. destruct shutdown.
    + simpl. rewrite app_nil_r. split; reflexivity.
    + pose proof (processNextWorkItem_calls c obj w) as (Htrue & calls & Hcalls & Hshape).
      destruct (processNextWorkItem c (obj, false) w) as [continue w']; simpl in *.
      subst continue. destruct (IH w') as [Hrest Hdone].
      split; [exact Hrest |].
      rewrite Hdone, Hcalls, filter_app, <- app_assoc. f_equal.
      destruct Hshape as [-> | ->]; reflexivity.
Qed.

(** X6: a worker puts nothing on the queue: whatever it is handed and
    however the syncs end, it calls neither Add nor AddRateLimited. *)
Theorem runWorker_never_enqueues c (gets : list (Item * bool)) w :
  filter is_enqueue (queue_calls (trace (runWorker c gets w).2))
  = filter is_enqueue (queue_calls (trace w)).
Proof.
  revert w. induction gets as [| [obj shutdown] rest IH]; intros w; [reflexivity |].
  rewrite runWorker_cons. destruct shutdown; [reflexivity |].
  pose proof (processNextWorkItem_calls c obj w) as (Htrue & calls & Hcalls & Hshape).
  destruct (processNextWorkItem c (obj, false) w) as [continue w']; simpl in *.
  subst continue. rewrite IH, Hcalls, filter_app.
  destruct Hshape as [-> | ->]; simpl; rewrite app_nil_r; reflexivity.
Qed.

End DispatchProperties.

(** * Further properties of the sync and of the event handlers *)

Section SyncProperties.
Context {K : StreamKind} {R : Type} `{!Clientset R}.
Implicit Types (c : Controller) (w : World R) (stream : Stream) (service : Service).

(** X7: a failure of the Stream lister other than not-found is returned as
    it is; nothing is reported, recorded or written. *)
Theorem syncHandler_stream_lister_error c key namespace name e w :
  SplitMetaNamespaceKey key = Ok (namespace, name) ->
  streamsLister c namespace name = Err e ->
  IsNotFound (Some e) = false ->
  syncHandler c key w = (Some e, w).
Proof.
  intros Hkey Hget Hnf. unfold syncHandler. rewrite Hkey, Hget, Hnf. reflexivity.
Qed.

(** X8: a failure of the Service lister other than not-found is returned as
    it is: no Service is created and nothing else is done. *)
Theorem syncHandler_service_lister_error c key namespace name stream e w :
  SplitMetaNamespaceKey key = Ok (namespace, name) ->
  streamsLister c namespace name = Ok stream ->
  servicesLister c (Namespace (stream_ObjectMeta stream)) (StreamServiceName name)
    = Err e ->
  IsNotFound (Some e) = false ->
  syncHandler c key w = (Some e, w).
Proof.
  intros Hkey Hstream Hget Hnf. unfold syncHandler.
  rewrite Hkey, Hstream, Hget. cbn [err_of]. rewrite Hnf. reflexivity.
Qed.

(** X9: when the remote Update of the Stream fails, the sync returns that
    failure and records no Synced event: the Update is its only effect. *)
Theorem syncHandler_update_error c key namespace name stream service e w :
  SplitMetaNamespaceKey key = Ok (namespace, name) ->
  streamsLister c namespace name = Ok stream ->
  servicesLister c (Namespace (stream_ObjectMeta stream)) (StreamServiceName name)
    = Ok service ->
  IsControlledBy (svc_ObjectMeta service) (stream_ObjectMeta stream) = true ->
  let updated := Streams_Update (Namespace (stream_ObjectMeta stream)) stream (remote w) in
  updated.1 = Err e ->
  syncHandler c key w
  = (Some e,
     {| remote := updated.2;
        trace := trace w ++
          [StreamsUpdate (Namespace (stream_ObjectMeta stream)) stream] |}).
Proof.
  intros Hkey Hstream Hsvc Hctl updated Herr.
  unfold syncHandler. rewrite Hkey, Hstream, Hsvc.
  unfold mbind, M_bind, mret, M_ret. cbn [err_of IsNotFound]. rewrite Hctl.
  change (negb true) with false. cbv beta iota.
  rewrite updateStreamStatus_run. fold updated.
  destruct updated as [[s' | e'] r']; simpl in *; [discriminate |]. congruence.
Qed.

(** X10: the events of a sync agree with its result.  A Normal event is
    recorded only by a sync that returns nil: it has reason Synced, it is
    the last effect of the sync and the effect just before it is the Update
    of that Stream.  A Warning event is recorded only by a sync that
    returns an error, with reason ErrResourceExists and without any
    Update. *)
Theorem syncHandler_events_agree c key w :
  exists effects,
    trace (syncHandler c key w).2 = trace w ++ effects
    /\ (forall s r m, In (RecorderEvent s EventTypeNormal r m) effects ->
          (syncHandler c key w).1 = None
          /\ r = SuccessSynced
          /\ exists before,
               effects
               = before ++ [StreamsUpdate (Namespace (stream_ObjectMeta s)) s;
                            RecorderEvent s EventTypeNormal r m])
    /\ (forall s r m, In (RecorderEvent s EventTypeWarning r m) effects ->
          (syncHandler c key w).1 <> None
          /\ r = ErrResourceExists
          /\ forall ns s', ~ In (StreamsUpdate ns s') effects).
Proof.
  unfold syncHandler, updateStreamStatus. run.
  repeat case_match; simplify_eq; simpl; rewrite ?DeepCopy_eq, <- ?app_assoc; simpl;
    first [ eexists; split; [reflexivity |]
          | exists []; split; [symmetry; apply app_nil_r |] ];
    unfold EventTypeNormal, EventTypeWarning; simpl;
    (split; intros ev_subject ev_reason ev_message Hin);
    repeat (destruct Hin as [Hin | Hin]; try discriminate Hin);
    try contradiction; simplify_eq;
    repeat split; auto; try discriminate;
    try (exists []; reflexivity); try (eexists (cons _ nil); reflexivity);
    intros ns s' Hbad; simpl in Hbad; intuition discriminate.
Qed.

(** X11: one sync makes at most two remote writes, and only of these
    shapes: nothing; or, for the Stream the lister returned for the key,
    the create of its [newService]; the Update of that Stream; or that
    create followed by that Update. *)
Theorem syncHandler_remote_writes c key w :
  exists effects,
    trace (syncHandler c key w).2 = trace w ++ effects
    /\ (filter is_remote_write effects = []
        \/ exists namespace name stream,
             SplitMetaNamespaceKey key = Ok (namespace, name)
             /\ streamsLister c namespace name = Ok stream
             /\ let ns := Namespace (stream_ObjectMeta stream) in
                (filter is_remote_write effects = [ServicesCreate ns (newService stream)]
                 \/ filter is_remote_write effects = [StreamsUpdate ns stream]
                 \/ filter is_remote_write effects
                    = [ServicesCreate ns (newService stream); StreamsUpdate ns stream])).
Proof.
  unfold syncHandler, updateStreamStatus. run.
  repeat case_match; simplify_eq; simpl; rewrite ?DeepCopy_eq, <- ?app_assoc; simpl;
    first [ eexists; split; [reflexivity |]
          | exists []; split; [symmetry; apply app_nil_r |] ];
    first [ left; reflexivity
          | right; do 3 eexists; (split; [reflexivity |]); (split; [eassumption |]);
            simpl; eauto ].
Qed.

(** X12: ownership is decided by UID alone.  A cached Service that carries
    the owner references [newService] gave it for a Stream of another UID
    (an earlier Stream of the same name, say) is a collision: the sync
    records the Warning and fails without touching the remote store. *)
Theorem syncHandler_other_uid_collides c key namespace name stream old service w :
  SplitMetaNamespaceKey key = Ok (namespace, name) ->
  streamsLister c namespace name = Ok stream ->
  servicesLister c (Namespace (stream_ObjectMeta stream)) (StreamServiceName name)
    = Ok service ->
  OwnerReferences (svc_ObjectMeta service)
    = OwnerReferences (svc_ObjectMeta (newService old)) ->
  UID (stream_ObjectMeta old) <> UID (stream_ObjectMeta stream) ->
  let msg := Sprintf MessageResourceExists [Name (svc_ObjectMeta service)] in
  IsControlledBy (svc_ObjectMeta service) (stream_ObjectMeta old) = true
  /\ syncHandler c key w
     = (Some (Errorf msg []),
        {| remote := remote w;
           trace := trace w ++
             [RecorderEvent stream EventTypeWarning ErrResourceExists msg] |}).
Proof.
  intros Hkey Hstream Hsvc Hrefs Huid msg.
  assert (Hold : IsControlledBy (svc_ObjectMeta service) (stream_ObjectMeta old) = true).
  { unfold IsControlledBy, GetControllerOf. rewrite Hrefs. simpl.
    apply String.eqb_refl. }
  assert (Hnew : IsControlledBy (svc_ObjectMeta service) (stream_ObjectMeta stream) = false).
  { unfold IsControlledBy, GetControllerOf. rewrite Hrefs. simpl.
    apply String.eqb_neq. exact Huid. }
  split; [exact Hold |].
  unfold syncHandler. rewrite Hkey, Hstream, Hsvc. run. rewrite Hnew. reflexivity.
Qed.

(** X13: the owner reference set by [newService] leads [handleObject] back
    to the Stream: for the created Service, live or kept in a tombstone,
    the key of its Stream is enqueued, provided the lister holds the Stream
    under its namespace and name. *)
Theorem handleObject_newService c stream obj w :
  streamsLister c (Namespace (stream_ObjectMeta stream)) (Name (stream_ObjectMeta stream))
    = Ok stream ->
  lastKnown obj = Some (svc_ObjectMeta (newService stream)) ->
  handleObject c obj w
  = (tt, {| remote := remote w;
            trace := trace w ++
              [Queue (AddRateLimited
                        (ItemString (MetaNamespaceKey (stream_ObjectMeta stream))))] |}).
Proof.
  intros Hget Hobj. rewrite (handleObject_decoded c obj _ w Hobj).
  simpl. rewrite Hget. reflexivity.
Qed.

(** X14: an object [handleObject] cannot decode (neither an object with
    metadata nor a tombstone holding one) is reported with exactly one
    error; nothing is enqueued and the remote store is not touched. *)
Theorem handleObject_undecodable c obj w :
  lastKnown obj = None ->
  let run := handleObject c obj w in
  remote run.2 = remote w
  /\ queue_calls (trace run.2) = queue_calls (trace w)
  /\ exists text, trace run.2 = trace w ++ [HandleError (ErrorString text)].
Proof.
  intros Hobj. unfold handleObject.
  destruct obj as [o | tk [o |] | ek |]; simpl in Hobj; try discriminate; run;
    (split; [reflexivity |]); rewrite queue_calls_app, app_nil_r;
    (split; [reflexivity |]); eexists; reflexivity.
Qed.

(** X15: the event handlers only enqueue or report.  For every Service or
    Stream notification the remote store is left as it is, no event is
    recorded, and at most one effect is produced: an AddRateLimited of a
    string key, or an error report. *)
Theorem eventHandlers_frame c w :
  (forall n : Notification Service,
      let run := serviceEventHandler c n w in
      remote run.2 = remote w
      /\ exists effects,
           trace run.2 = trace w ++ effects
           /\ length effects <= 1
           /\ forall e, In e effects ->
                (exists key, e = Queue (AddRateLimited (ItemString key)))
                \/ (exists err, e = HandleError err))
  /\ (forall n : Notification Stream,
        let run := streamEventHandler c n w in
        remote run.2 = remote w
        /\ exists effects,
             trace run.2 = trace w ++ effects
             /\ length effects <= 1
             /\ forall e, In e effects ->
                  (exists key, e = Queue (AddRateLimited (ItemString key)))
                  \/ (exists err, e = HandleError err)).
Proof.
  split; intros n; cbv zeta.
  - unfold serviceEventHandler, handleObject, enqueueStream, MetaNamespaceKeyFunc. run.
    repeat case_match; simplify_eq; simpl;
      (split; [reflexivity |]);
      first [ eexists; split; [reflexivity |]
            | exists []; split; [symmetry; apply app_nil_r |] ];
      simpl; (split; [lia |]); intros e0 Hin;
      repeat (destruct Hin as [Hin | Hin]); try contradiction; subst; eauto.
  - unfold streamEventHandler, enqueueStream, MetaNamespaceKeyFunc. run.
    repeat case_match; simplify_eq; simpl;
      (split; [reflexivity |]);
      first [ eexists; split; [reflexivity |]
            | exists []; split; [symmetry; apply app_nil_r |] ];
      simpl; (split; [lia |]); intros e0 Hin;
      repeat (destruct Hin as [Hin | Hin]); try contradiction; subst; eauto.
Qed.

End SyncProperties.

(** * Further properties of the sync against the object tracker *)

Section TrackerSyncProperties.
Context {K : StreamKind}.
Implicit Types (c : Controller) (t : Tracker) (stream : Stream) (service : Service).

(** With no Service of the derived name in cache and store, the sync is
    the create, the Update and the Synced event. *)
Lemma syncHandler_created c key namespace name stream t tr :
  SplitMetaNamespaceKey key = Ok (namespace, name) ->
  streamsLister c namespace name = Ok stream ->
  IsNotFound (err_of (servicesLister c (Namespace (stream_ObjectMeta stream))
                                       (StreamServiceName name))) = true ->
  let ns := Namespace (stream_ObjectMeta stream) in
  let derived := StreamServiceName (Name (stream_ObjectMeta stream)) in
  tracked_services t !! (ns, derived) = None ->
  is_Some (tracked_streams t !! (ns, Name (stream_ObjectMeta stream))) ->
  syncHandler c key {| remote := t; trace := tr |}
  = (None,
     {| remote :=
          {| tracked_services := <[(ns, derived) := newService stream]> (tracked_services t);
             tracked_streams :=
               <[(ns, Name (stream_ObjectMeta stream)) := stream]> (tracked_streams t) |};
        trace := tr ++
          [ServicesCreate ns (newService stream);
           StreamsUpdate ns stream;
           RecorderEvent stream EventTypeNormal SuccessSynced MessageResourceSynced] |}).
Proof.
  intros Hkey Hstream Hnf ns derived Hfree [old Hold].
  unfold syncHandler. rewrite Hkey, Hstream. cbv zeta. rewrite Hnf.
  unfold mbind, M_bind, mret, M_ret, servicesCreate. cbn [remote trace].
  unfold Services_Create, tracker_clientset.
  change (tracker_create_service (Namespace (stream_ObjectMeta stream)))
    with (tracker_create_service (Namespace (svc_ObjectMeta (newService stream)))).
  rewrite tracker_create_service_run. cbv zeta.
  cbn [newService svc_ObjectMeta Namespace Name].
  fold ns derived. rewrite Hfree.
  rewrite newService_controlled. cbn [negb].
  rewrite updateStreamStatus_run. cbn [remote trace].
  unfold Streams_Update. rewrite tracker_update_stream_run. cbv zeta. fold ns.
  cbn [tracked_streams tracked_services].
  rewrite Hold. cbn [fst snd err_of]. unfold emit. cbn [remote trace].
  rewrite <- !app_assoc. reflexivity.
Qed.

(** X16: convergence from empty.  For a cached Stream that the store holds
    too, with no Service of the derived name in the cache nor in the store,
    one sync returns nil after the create of [newService stream], the
    Update and the Synced event; the store then holds that Service, which
    the Stream controls, under the Stream's namespace and the derived name,
    and every other Service of the store is as before. *)
Theorem syncHandler_converges_from_empty c key namespace name stream t tr :
  SplitMetaNamespaceKey key = Ok (namespace, name) ->
  streamsLister c namespace name = Ok stream ->
  IsNotFound (err_of (servicesLister c (Namespace (stream_ObjectMeta stream))
                                       (StreamServiceName name))) = true ->
  let ns := Namespace (stream_ObjectMeta stream) in
  let derived := StreamServiceName (Name (stream_ObjectMeta stream)) in
  tracked_services t !! (ns, derived) = None ->
  is_Some (tracked_streams t !! (ns, Name (stream_ObjectMeta stream))) ->
  let run := syncHandler c key {| remote := t; trace := tr |} in
  run.1 = None
  /\ trace run.2
     = tr ++ [ServicesCreate ns (newService stream);
              StreamsUpdate ns stream;
              RecorderEvent stream EventTypeNormal SuccessSynced MessageResourceSynced]
  /\ (exists service,
        tracked_services (remote run.2) !! (ns, derived) = Some service
        /\ service = newService stream
        /\ IsControlledBy (svc_ObjectMeta service) (stream_ObjectMeta stream) = true)
  /\ (forall k, k <> (ns, derived) ->
        tracked_services (remote run.2) !! k = tracked_services t !! k).
Proof.
  intros Hkey Hstream Hnf ns derived Hfree Hheld run.
  assert (Hrun := syncHandler_created c key namespace name stream t tr
                    Hkey Hstream Hnf Hfree Hheld).
  fold ns derived in Hrun. fold run in Hrun. rewrite Hrun.
  cbn [fst snd remote trace tracked_services].
  repeat split.
  - exists (newService stream). rewrite lookup_insert_eq.
    repeat split. apply newService_controlled.
  - intros k Hne. apply lookup_insert_ne. congruence.
Qed.

(** X17: a Service already in the store is never overwritten.  When the
    cache does not show the Service of the derived name but the store holds
    one, the create is refused with AlreadyExists, the sync returns that
    error and the store is left as it was. *)
Theorem syncHandler_create_refused c key namespace name stream existing t tr :
  SplitMetaNamespaceKey key = Ok (namespace, name) ->
  streamsLister c namespace name = Ok stream ->
  IsNotFound (err_of (servicesLister c (Namespace (stream_ObjectMeta stream))
                                       (StreamServiceName name))) = true ->
  let ns := Namespace (stream_ObjectMeta stream) in
  let derived := StreamServiceName (Name (stream_ObjectMeta stream)) in
  tracked_services t !! (ns, derived) = Some existing ->
  syncHandler c key {| remote := t; trace := tr |}
  = (Some (StatusError StatusReasonAlreadyExists derived),
     {| remote := t; trace := tr ++ [ServicesCreate ns (newService stream)] |}).
Proof.
  intros Hkey Hstream Hnf ns derived Hheld.
  unfold syncHandler. rewrite Hkey, Hstream. cbv zeta. rewrite Hnf.
  unfold mbind, M_bind, mret, M_ret, servicesCreate. cbn [remote trace].
  unfold Services_Create, tracker_clientset.
  change (tracker_create_service (Namespace (stream_ObjectMeta stream)))
    with (tracker_create_service (Namespace (svc_ObjectMeta (newService stream)))).
  rewrite tracker_create_service_run. cbv zeta.
  cbn [newService svc_ObjectMeta Namespace Name].
  fold ns derived. rewrite Hheld. reflexivity.
Qed.

(** X18: a deleted Service comes back.  When the Service created for a
    Stream is gone from cache and store, its delete notification (the
    object or its tombstone) enqueues a key, and the dispatch step on that
    key creates the Service again in the store, forgets the key and goes
    on; namespace and name of the Stream must be free of slashes. *)
Theorem deleted_service_is_recreated c stream obj t tr :
  let ns := Namespace (stream_ObjectMeta stream) in
  let name := Name (stream_ObjectMeta stream) in
  count_slash ns = 0 ->
  count_slash name = 0 ->
  streamsLister c ns name = Ok stream ->
  IsNotFound (err_of (servicesLister c ns (StreamServiceName name))) = true ->
  lastKnown obj = Some (svc_ObjectMeta (newService stream)) ->
  tracked_services t !! (ns, StreamServiceName name) = None ->
  is_Some (tracked_streams t !! (ns, name)) ->
  exists key,
    (serviceEventHandler c (OnDelete obj) {| remote := t; trace := tr |}).2
    = {| remote := t; trace := tr ++ [Queue (AddRateLimited (ItemString key))] |}
    /\ let step := processNextWorkItem c (ItemString key, false)
                     {| remote := t; trace := [] |} in
       step.1 = true
       /\ tracked_services (remote step.2) !! (ns, StreamServiceName name)
          = Some (newService stream)
       /\ queue_calls (trace step.2) = [Forget (ItemString key); Done (ItemString key)].
Proof.
  intros ns name Hns Hname Hget Hnf Hobj Hfree Hheld.
  exists (MetaNamespaceKey (stream_ObjectMeta stream)). split.
  - simpl. rewrite (handleObject_decoded c obj _ _ Hobj). simpl.
    fold ns name. rewrite Hget. reflexivity.
  - pose proof (split_key_of_meta (stream_ObjectMeta stream) Hns Hname) as Hkey.
    pose proof (syncHandler_created c _ ns name stream t [] Hkey Hget Hnf Hfree Hheld)
      as Hrun.
    cbv zeta. unfold processNextWorkItem, processItem.
    unfold mbind, M_bind, mret, M_ret. rewrite Hrun. unfold emit. cbn.
    repeat split. apply lookup_insert_eq.
Qed.

End TrackerSyncProperties.

(** * The further theorems at concrete inputs *)

Section FurtherInstances.
Import Sample.

(** X2 at the add of [s1]. *)
Lemma enqueued_key_round_trip_witness :
  count_slash "ns" = 0 /\ count_slash "s1" = 0
  /\ exists key,
       trace (streamEventHandler (controller [s1] []) (OnAdd s1)
                (world (tracker [s1] []))).2
       = [] ++ [Queue (AddRateLimited (ItemString key))]
       /\ SplitMetaNamespaceKey key = Ok ("ns", "s1").
Proof.
  split; [reflexivity |]. split; [reflexivity |].
  apply (enqueued_key_round_trip (controller [s1] []) s1 (world (tracker [s1] [])));
    reflexivity.
Defined.

(** X3 at a key with two slashes. *)
Lemma processNextWorkItem_malformed_key_witness :
  2 <= count_slash "a/b/c"
  /\ processNextWorkItem (controller [s1] []) (ItemString "a/b/c", false)
       (world (tracker [s1] []))
     = (true,
        {| remote := tracker [s1] [];
           trace := [HandleError (Errorf "invalid resource key: %s" ["a/b/c"]);
                     Queue (Forget (ItemString "a/b/c"));
                     Queue (Done (ItemString "a/b/c"))] |}).
Proof.
  split; [simpl; lia |].
  apply (processNextWorkItem_malformed_key (controller [s1] []) "a/b/c"
           (world (tracker [s1] []))).
  simpl; lia.
Defined.

(** X7 at a Stream lister that fails. *)
Lemma syncHandler_stream_lister_error_witness :
  let e := StatusError StatusReasonInternalError "indexer closed" in
  let c := {| streamsLister := fun _ _ => Err e;
              servicesLister := fun _ _ => Err e |} in
  IsNotFound (Some e) = false
  /\ syncHandler c "ns/s1" (world (tracker [s1] [])) = (Some e, world (tracker [s1] [])).
Proof.
  intros e c. split; [reflexivity |].
  apply (syncHandler_stream_lister_error c "ns/s1" "ns" "s1" e (world (tracker [s1] [])));
    reflexivity.
Defined.

(** X8 at a Service lister that fails. *)
Lemma syncHandler_service_lister_error_witness :
  let e := StatusError StatusReasonInternalError "indexer closed" in
  let c := {| streamsLister := streamsLister (controller [s1] []);
              servicesLister := fun _ _ => Err e |} in
  IsNotFound (Some e) = false
  /\ syncHandler c "ns/s1" (world (tracker [s1] [])) = (Some e, world (tracker [s1] [])).
Proof.
  intros e c. split; [reflexivity |].
  apply (syncHandler_service_lister_error c "ns/s1" "ns" "s1" s1 e
           (world (tracker [s1] []))); reflexivity.
Defined.

(** X9 at a store that no longer holds the Stream. *)
Lemma syncHandler_update_error_witness :
  syncHandler (controller [s1] [svc1]) "ns/s1" (world (tracker [] [svc1]))
  = (Some (StatusError StatusReasonNotFound "s1"),
     {| remote := tracker [] [svc1]; trace := [] ++ [StreamsUpdate "ns" s1] |}).
Proof.
  etransitivity;
    [ apply (syncHandler_update_error (controller [s1] [svc1]) "ns/s1" "ns" "s1" s1 svc1
               (StatusError StatusReasonNotFound "s1") (world (tracker [] [svc1])));
      reflexivity
    | reflexivity ].
Defined.

(** X12 at the Service left by an earlier Stream ns/s1. *)
Lemma syncHandler_other_uid_collides_witness :
  let old := {| stream_ObjectMeta := meta "ns" "s1" "uid-0" "2" [];
                stream_Spec := "spec-0"; stream_Status := "" |} in
  let c := controller [s1] [newService old] in
  UID (stream_ObjectMeta old) <> UID (stream_ObjectMeta s1)
  /\ (syncHandler c "ns/s1" (world (tracker [s1] [newService old]))).1
     = Some (Errorf (Sprintf MessageResourceExists ["s1-stream"]) []).
Proof.
  intros old c.
  assert (Huid : UID (stream_ObjectMeta old) <> UID (stream_ObjectMeta s1))
    by (simpl; discriminate).
  split; [exact Huid |].
  destruct (syncHandler_other_uid_collides c "ns/s1" "ns" "s1" s1 old (newService old)
              (world (tracker [s1] [newService old])) eq_refl eq_refl eq_refl eq_refl Huid)
    as [_ Hrun].
  rewrite Hrun. reflexivity.
Defined.

(** X13 at the tombstone of the Service created for [s1]. *)
Lemma handleObject_newService_witness :
  let obj := ITombstone "ns/s1-stream" (Some (ObjService (newService s1))) in
  handleObject (controller [s1] []) obj (world (tracker [s1] []))
  = (tt, {| remote := tracker [s1] [];
            trace := [] ++ [Queue (AddRateLimited (ItemString "ns/s1"))] |}).
Proof.
  intros obj.
  apply (handleObject_newService (controller [s1] []) s1 obj (world (tracker [s1] [])));
    reflexivity.
Defined.

(** X14 at a tombstone that holds no object. *)
Lemma handleObject_undecodable_witness :
  let run := handleObject (controller [s1] []) (ITombstone "ns/s1-stream" None)
               (world (tracker [s1] [])) in
  remote run.2 = tracker [s1] []
  /\ queue_calls (trace run.2) = []
  /\ exists text, trace run.2 = [] ++ [HandleError (ErrorString text)].
Proof.
  apply (handleObject_undecodable (controller [s1] []) (ITombstone "ns/s1-stream" None)
           (world (tracker [s1] []))).
  reflexivity.
Defined.

(** X16 at [s1] without Service. *)
Lemma syncHandler_converges_from_empty_witness :
  let run := syncHandler (controller [s1] []) "ns/s1"
               {| remote := tracker [s1] []; trace := [] |} in
  run.1 = None
  /\ exists service,
       tracked_services (remote run.2) !! ("ns", "s1-stream") = Some service
       /\ service = newService s1
       /\ IsControlledBy (svc_ObjectMeta service) (stream_ObjectMeta s1) = true.
Proof.
  intros run.
  destruct (syncHandler_converges_from_empty (controller [s1] []) "ns/s1" "ns" "s1" s1
              (tracker [s1] []) [] eq_refl eq_refl eq_refl eq_refl
              (ex_intro _ s1 eq_refl))
    as (Hnil & _ & Hheld & _).
  split; [exact Hnil | exact Hheld].
Defined.

(** X17 at a cache that has not yet seen the Service of the store. *)
Lemma syncHandler_create_refused_witness :
  syncHandler (controller [s1] []) "ns/s1" {| remote := tracker [s1] [svc1]; trace := [] |}
  = (Some (StatusError StatusReasonAlreadyExists "s1-stream"),
     {| remote := tracker [s1] [svc1];
        trace := [] ++ [ServicesCreate "ns" (newService s1)] |}).
Proof.
  apply (syncHandler_create_refused (controller [s1] []) "ns/s1" "ns" "s1" s1 svc1
           (tracker [s1] [svc1]) []); reflexivity.
Defined.

(** X18 at the tombstone of the Service created for [s1]. *)
Lemma deleted_service_is_recreated_witness :
  let obj := ITombstone "ns/s1-stream" (Some (ObjService (newService s1))) in
  exists key,
    (serviceEventHandler (controller [s1] []) (OnDelete obj)
       {| remote := tracker [s1] []; trace := [] |}).2
    = {| remote := tracker [s1] [];
         trace := [] ++ [Queue (AddRateLimited (ItemString key))] |}
    /\ let step := processNextWorkItem (controller [s1] []) (ItemString key, false)
                     {| remote := tracker [s1] []; trace := [] |} in
       step.1 = true
       /\ tracked_services (remote step.2) !! ("ns", "s1-stream") = Some (newService s1)
       /\ queue_calls (trace step.2) = [Forget (ItemString key); Done (ItemString key)].
Proof.
  intros obj.
  apply (deleted_service_is_recreated (controller [s1] []) s1 obj (tracker [s1] []) []);
    try reflexivity.
  exists s1. reflexivity.
Defined.

End FurtherInstances.
